(** * calculate_saturation_from_fragments: saturation of a scATAC experiment

    A shallow embedding of [calculate_saturation_from_fragments.py]:
    the model function [MM], the sub-sampling engine
    [sub_sample_fragments] and the curve marking done by [fit_MM].

    Conventions of the embedding.
    - Python and numpy floating point numbers are idealised as exact
      rationals ([Q]); there is no NaN, no infinity and no rounding.  A
      division by zero, which Python answers with [ZeroDivisionError]
      and numpy with an infinity or a NaN, has no counterpart here
      ([Q]'s division gives 0): what is stated of a quotient is stated
      where its denominator is not zero.  A polars null (and the NaN
      pandas makes of it) is [None].
    - A Python exception is a value of [py_error]; code that may raise
      returns a [result].
    - polars and numpy operations are written out as list functions
      (group-by, join, explode, sample, where, linspace).
    - The nonlinear solver [scipy.optimize.curve_fit] is not part of the
      repository: its answer [best_fit_ab] is an argument of [fit_MM].
    - The random source of [DataFrame.sample] is an explicit state, a
      list of naturals consumed one draw at a time. *)

From Stdlib Require Import ZArith QArith Qround List Bool Lia Lqa.
From Stdlib Require Import String Ascii Permutation DecimalString.
Import ListNotations.

Local Open Scope Q_scope.

(** ** Exceptions and results *)

Inductive py_error : Type :=
| IndexError
| ValueError
| TypeError
| ShapeError.

Inductive result (A : Type) : Type :=
| Ok (a : A)
| Raise (e : py_error).

Arguments Ok {A} a.
Arguments Raise {A} e.

Definition bind {A B : Type} (r : result A) (k : A -> result B) : result B :=
  match r with
  | Ok a => k a
  | Raise e => Raise e
  end.

Notation "x <- r ;; k" := (bind r (fun x => k))
  (at level 61, r at next level, right associativity).

(** ** Numbers *)

Definition Qltb (a b : Q) : bool := negb (Qle_bool b a).
Definition Qgeb (a b : Q) : bool := Qle_bool b a.

(** [int(q)]: truncation toward zero. *)
Definition py_int (q : Q) : Z := Z.quot (Qnum q) (Zpos (Qden q)).

(** The literal [1e10]. *)
Definition sentinel : Q := 10000000000 # 1.

(** ** numpy values: an array or a plain Python float *)

Inductive npval : Type :=
| NdArray (a : list Q)
| PyFloat (q : Q).

(** [c * x], [c + x] with a scalar [c], and [u / v], as numpy
    broadcasts them.  ([u / v] stands for the quotient of the code only
    where the denominator is not zero.) *)
Definition np_scale (c : Q) (x : npval) : npval :=
  match x with
  | NdArray a => NdArray (map (fun e => c * e) a)
  | PyFloat q => PyFloat (c * q)
  end.

Definition np_shift (c : Q) (x : npval) : npval :=
  match x with
  | NdArray a => NdArray (map (fun e => c + e) a)
  | PyFloat q => PyFloat (c + q)
  end.

Fixpoint zip_div (u v : list Q) : list Q :=
  match u, v with
  | a :: u', b :: v' => (a / b) :: zip_div u' v'
  | _, _ => []
  end.

Definition np_div (u v : npval) : npval :=
  match u, v with
  | NdArray a, NdArray b => NdArray (zip_div a b)
  | NdArray a, PyFloat q => NdArray (map (fun e => e / q) a)
  | PyFloat p, NdArray b => NdArray (map (fun e => p / e) b)
  | PyFloat p, PyFloat q => PyFloat (p / q)
  end.

(** ** The model function *)

(** [MM(x, Vmax, Km)], lines 103-111. *)
Definition MM (x : npval) (Vmax Km : Q) : npval :=
  if Qltb 0 Vmax && Qltb 0 Km
  then np_div (np_scale Vmax x) (np_shift Km x)
  else PyFloat sentinel.

(** The value of the model at one point, for positive parameters. *)
Definition mm_at (Vmax Km x : Q) : Q := (Vmax * x) / (Km + x).

(** ** Sequences: the Python and numpy primitives of [fit_MM] *)

Notation "' pat <- r ;; k" :=
  (bind r (fun v => match v with pat => k end))
  (at level 61, pat pattern, r at next level, right associativity).

(** [max(a)] on a sequence: the first greatest item; [ValueError] on an
    empty one. *)
Fixpoint max_from (m : Q) (a : list Q) : Q :=
  match a with
  | [] => m
  | x :: a' => max_from (if Qltb m x then x else m) a'
  end.

Definition seq_max (a : list Q) : result Q :=
  match a with
  | [] => Raise ValueError
  | x :: a' => Ok (max_from x a')
  end.

(** [np.where(a >= v)[0]]: the positions of the items that are at
    least [v], in increasing order. *)
Fixpoint where_ge_from (i : nat) (a : list Q) (v : Q) : list nat :=
  match a with
  | [] => []
  | y :: a' =>
      if Qgeb y v then i :: where_ge_from (S i) a' v
      else where_ge_from (S i) a' v
  end.

Definition np_where_ge (a : list Q) (v : Q) : list nat := where_ge_from 0 a v.

(** [idx[0]] and [a[i]]: [IndexError] out of range. *)
Definition first_of (idx : list nat) : result nat :=
  match idx with
  | [] => Raise IndexError
  | i :: _ => Ok i
  end.

Definition item (a : list Q) (i : nat) : result Q :=
  match nth_error a i with
  | Some x => Ok x
  | None => Raise IndexError
  end.

(** [a[-1]]. *)
Definition last_item (a : list Q) : result Q :=
  match a with
  | [] => Raise IndexError
  | _ => item a (List.length a - 1)
  end.

(** [np.linspace(start, stop, num)]. *)
Definition np_linspace (start stop : Q) (num : nat) : list Q :=
  let step := (stop - start) / inject_Z (Z.of_nat (num - 1)) in
  map (fun i => start + inject_Z (Z.of_nat i) * step) (seq 0 num).

(** ** [fit_MM] *)

(** What [fit_MM] draws: the curve, the marker of the current
    saturation with the achieved share of [Vmax] (before its rounding
    for the label), the abscissa the labels are anchored at, and one
    marker [(perc, x_coef, y_coef)] per resolved percentage. *)
Record Figure : Type := {
  fig_curve : list Q * npval;
  fig_current : Q * Q;
  fig_achieved : Q;
  fig_text_x : Q;
  fig_marks : list (Q * Q * Q)
}.

(** Lines 217-218: the extrapolation grid and the model on it. *)
Definition extrapolation_grid (x_data : list Q) : result (list Q) :=
  mx <- seq_max x_data ;;
  Ok (np_linspace 0 (inject_Z (py_int (mx * 100))) 500).

(** Lines 217-225: the curve the markers are read from. *)
Definition fitted_curve (best_fit_ab : Q * Q) (x_data : list Q)
  : result (list Q * list Q) :=
  let '(Vmax, Km) := best_fit_ab in
  x_fit <- extrapolation_grid x_data ;;
  match MM (NdArray x_fit) Vmax Km with
  | PyFloat _ => Raise TypeError
  | NdArray y_fit =>
      let y_val := Vmax * (95 # 100) in
      top <- seq_max y_fit ;;
      if Qltb y_val top then
        x_coef <- first_of (np_where_ge y_fit y_val) ;;
        Ok (firstn x_coef x_fit, firstn x_coef y_fit)
      else Ok (x_fit, y_fit)
  end.

(** Lines 231-233 and 251-253: the first point of the curve at or above
    a target. *)
Definition mark_at (x_fit y_fit : list Q) (target : Q) : result (Q * Q) :=
  x_idx <- first_of (np_where_ge y_fit target) ;;
  x_coef <- item x_fit x_idx ;;
  y_coef <- item y_fit x_idx ;;
  Ok (x_coef, y_coef).

(** Lines 246-266: the loop over the requested percentages. *)
Fixpoint mark_percentages (Vmax : Q) (x_fit y_fit : list Q)
    (percentages : list Q) : result (list (Q * Q * Q)) :=
  match percentages with
  | [] => Ok []
  | perc :: rest =>
      let y_val := Vmax * perc in
      top <- seq_max y_fit ;;
      if Qltb y_val top then
        '(x_coef, y_coef) <- mark_at x_fit y_fit y_val ;;
        marks <- mark_percentages Vmax x_fit y_fit rest ;;
        Ok ((perc, x_coef, y_coef) :: marks)
      else mark_percentages Vmax x_fit y_fit rest
  end.

(** [fit_MM], lines 204-271, after the column selection and the call of
    the solver (lines 212-215): [x_data] and [y_data] are the two
    selected columns and [best_fit_ab] the solver's answer. *)
Definition fit_MM (best_fit_ab : Q * Q) (x_data y_data : list Q)
    (percentages : list Q) : result Figure :=
  '(x_fit, y_fit) <- fitted_curve best_fit_ab x_data ;;
  let curve := (x_fit, MM (NdArray x_fit) (fst best_fit_ab) (snd best_fit_ab)) in
  observed <- seq_max y_data ;;
  '(x_coef, y_coef) <- mark_at x_fit y_fit observed ;;
  anchor <- last_item x_fit ;;
  marks <- mark_percentages (fst best_fit_ab) x_fit y_fit percentages ;;
  Ok {| fig_curve := curve;
        fig_current := (x_coef, y_coef);
        fig_achieved := 100 * observed / fst best_fit_ab;
        fig_text_x := anchor;
        fig_marks := marks |}.

(** ** The fragment table *)

(** One row of the fragments BED file as
    [read_bc_and_counts_from_fragments_file] returns it (lines 82-98).
    [End_] is the column [End]. *)
Record Fragment : Type := {
  Chromosome : string;
  Start : Z;
  End_ : Z;
  CellBarcode : string;
  FragmentCount : Z
}.

Definition DataFrame : Type := list Fragment.

(** ** polars operations *)

Section GroupBy.
Context {A K : Type}.
Variable eqb : K -> K -> bool.
Variable key : A -> K.

(** The distinct keys, in the order of their first row. *)
Fixpoint distinct (ks : list K) : list K :=
  match ks with
  | [] => []
  | k :: ks' => k :: filter (fun k' => negb (eqb k k')) (distinct ks')
  end.

(** [df.groupby(key)]: one group per distinct key, holding the rows
    of that key.  (polars leaves the order of the groups open; the
    order of first appearance is taken here.) *)
Definition groupby (df : list A) : list (K * list A) :=
  map (fun k => (k, filter (fun r => eqb k (key r)) df))
      (distinct (map key df)).
End GroupBy.

(** [.agg(pl.col(c).count())]: the number of rows of each group. *)
Definition agg_count {A K : Type} (groups : list (K * list A)) : list (K * Z) :=
  map (fun g => (fst g, Z.of_nat (List.length (snd g)))) groups.

(** Lines 146-150: [repeat_by] and [explode], one row per read.  Rows
    with a count below 1 are outside the input contract; they
    contribute no read here. *)
Definition explode_by_count (df : DataFrame) : DataFrame :=
  flat_map (fun r => repeat r (Z.to_nat (FragmentCount r))) df.

(** The random source: each draw takes the next number of the state. *)
Definition rng : Type := list nat.

Fixpoint take_at {A : Type} (i : nat) (l : list A) {struct l}
  : option (A * list A) :=
  match l with
  | [] => None
  | a :: l' =>
      match i with
      | O => Some (a, l')
      | S i' =>
          match take_at i' l' with
          | Some (b, r) => Some (b, a :: r)
          | None => None
          end
      end
  end.

(** [n] rows drawn without replacement. *)
Fixpoint sample_n {A : Type} (n : nat) (l : list A) (g : rng)
  : list A * rng :=
  match n with
  | O => ([], g)
  | S n' =>
      match take_at (Nat.modulo (hd O g) (List.length l)) l with
      | None => ([], g)
      | Some (a, l') =>
          let '(r, g') := sample_n n' l' (tl g) in (a :: r, g')
      end
  end.

(** [df.sample(frac=frac)]: [int(frac * height)] rows without
    replacement; polars refuses to draw more rows than there are. *)
Definition sample {A : Type} (frac : Q) (df : list A) (g : rng)
  : result (list A * rng) :=
  let n := Z.to_nat (py_int (frac * inject_Z (Z.of_nat (List.length df)))) in
  if Nat.ltb (List.length df) n then Raise ShapeError
  else Ok (sample_n n df g).

(** A row of [good_cell_barcodes.join(..., how="left")]: the columns of
    the left table and, when a row of the right table matches, that
    row; all right columns are null otherwise. *)
Definition JoinedRow : Type := (string * Z) * option Fragment.

Definition left_join (left : list (string * Z)) (right : DataFrame)
  : list JoinedRow :=
  flat_map
    (fun l =>
       match filter (fun r => String.eqb (fst l) (CellBarcode r)) right with
       | [] => [(l, None)]
       | matches => map (fun r => (l, Some r)) matches
       end)
    left.

(** ** Statistics *)

Definition sumZ (l : list Z) : Z := fold_right Z.add 0%Z l.

(** [.mean()] and [.median()] of a column: null on an empty column. *)
Definition mean (l : list Z) : option Q :=
  match l with
  | [] => None
  | _ => Some (inject_Z (sumZ l) / inject_Z (Z.of_nat (List.length l)))
  end.

Fixpoint insert_sorted (x : Z) (l : list Z) : list Z :=
  match l with
  | [] => [x]
  | y :: l' => if (x <=? y)%Z then x :: l else y :: insert_sorted x l'
  end.

Definition sort (l : list Z) : list Z := fold_right insert_sorted [] l.

Definition median (l : list Z) : option Q :=
  match l with
  | [] => None
  | _ =>
      let s := sort l in
      let n := List.length s in
      if Nat.even n
      then Some ((inject_Z (nth (n / 2 - 1) s 0%Z) + inject_Z (nth (n / 2) s 0%Z))
                 / 2)
      else Some (inject_Z (nth (n / 2) s 0%Z))
  end.

(** The key of the grouping of line 180. *)
Definition position_key (j : JoinedRow) : string * option (string * Z * Z) :=
  (fst (fst j),
   match snd j with
   | Some r => Some (Chromosome r, Start r, End_ r)
   | None => None
   end).

Definition position_key_eqb (a b : string * option (string * Z * Z)) : bool :=
  String.eqb (fst a) (fst b) &&
  match snd a, snd b with
  | Some (c1, s1, e1), Some (c2, s2, e2) =>
      String.eqb c1 c2 && Z.eqb s1 s2 && Z.eqb e1 e2
  | None, None => true
  | _, _ => false
  end.

(** Lines 170-176: the mean, over the barcodes of the joined table, of
    the number of its rows ([count] counts the rows of a group, a row
    of nulls included). *)
Definition mean_frag_per_bc_of (joined : list JoinedRow) : option Q :=
  mean (map snd (agg_count (groupby String.eqb (fun j => fst (fst j)) joined))).

(** Lines 179-189: the median, over the barcodes of the joined table,
    of the number of distinct (Chromosome, Start, End) of its rows. *)
Definition median_uniq_frag_per_bc_of (joined : list JoinedRow) : option Q :=
  let positions := groupby position_key_eqb position_key joined in
  median (map snd (agg_count (groupby String.eqb (fun p => fst (fst p)) positions))).

(** ** The statistics bucket *)

(** A Python [dict] with string keys: the entries in insertion order. *)
Definition dict (V : Type) : Type := list (string * V).

(** [d[k] = v]: a present key keeps its place. *)
Fixpoint dict_set {V : Type} (k : string) (v : V) (d : dict V) : dict V :=
  match d with
  | [] => [(k, v)]
  | (k', v') :: d' =>
      if String.eqb k' k then (k', v) :: d' else (k', v') :: dict_set k v d'
  end.

Fixpoint dict_get {V : Type} (k : string) (d : dict V) : option V :=
  match d with
  | [] => None
  | (k', v') :: d' => if String.eqb k' k then Some v' else dict_get k d'
  end.

(** [stats_bucket], lines 123-131: one dict per statistic, keyed by the
    chunk label. *)
Record StatsBucket : Type := {
  mean_frag_per_bc : dict (option Q);
  median_uniq_frag_per_bc : dict (option Q);
  total_frag_count : dict Z;
  cell_barcode_count : dict Z
}.

Definition init_bucket : StatsBucket :=
  {| mean_frag_per_bc := [("chunk 0"%string, Some 0)];
     median_uniq_frag_per_bc := [("chunk 0"%string, Some 0)];
     total_frag_count := [("chunk 0"%string, 0%Z)];
     cell_barcode_count := [("chunk 0"%string, 0%Z)] |}.

(** A row of [pd.DataFrame(stats_bucket)]; a cell is [None] (NaN) when
    the statistic is null or its dict lacks the label. *)
Record StatsRow : Type := {
  row_mean_frag_per_bc : option Q;
  row_median_uniq_frag_per_bc : option Q;
  row_total_frag_count : option Z;
  row_cell_barcode_count : option Z
}.

Definition join_option {V : Type} (o : option (option V)) : option V :=
  match o with
  | Some v => v
  | None => None
  end.

(** [pd.DataFrame(stats_bucket)]: the index is the union of the labels
    of the four dicts, in their order of appearance. *)
Definition to_frame (b : StatsBucket) : list (string * StatsRow) :=
  let index :=
    distinct String.eqb
      (map fst (mean_frag_per_bc b) ++ map fst (median_uniq_frag_per_bc b)
       ++ map fst (total_frag_count b) ++ map fst (cell_barcode_count b)) in
  map (fun k =>
         (k, {| row_mean_frag_per_bc := join_option (dict_get k (mean_frag_per_bc b));
                row_median_uniq_frag_per_bc :=
                  join_option (dict_get k (median_uniq_frag_per_bc b));
                row_total_frag_count := dict_get k (total_frag_count b);
                row_cell_barcode_count := dict_get k (cell_barcode_count b) |}))
      index.

(** ** [sub_sample_fragments] *)

(** [np.arange(start, stop, step)]. *)
Definition np_arange (start stop step : Q) : list Q :=
  map (fun i => start + inject_Z (Z.of_nat i) * step)
      (seq 0 (Z.to_nat (Qceiling ((stop - start) / step)))).

Definition fractions : list Q := np_arange (1 # 10) (11 # 10) (1 # 10).

(** ["chunk " + str(int(fraction * 10))], line 153. *)
Definition chunk_label (fraction : Q) : string :=
  ("chunk " ++ NilZero.string_of_int (Z.to_int (py_int (fraction * 10))))%string.

(** Lines 134-138. *)
Definition good_cell_barcodes_of (fragments_df : DataFrame) (min_uniq_frag : Z)
  : list (string * Z) :=
  filter (fun g => Z.ltb min_uniq_frag (snd g))
         (agg_count (groupby String.eqb CellBarcode fragments_df)).

(** Lines 159-164. *)
Definition sample_for_good_bc (good_cell_barcodes : list (string * Z))
    (fragments_all_df : DataFrame) (fraction : Q) (g : rng)
  : result (list JoinedRow * rng) :=
  '(sampled, g') <- sample fraction fragments_all_df g ;;
  Ok (left_join good_cell_barcodes sampled, g').

(** Lines 167-193: the four entries written for a chunk. *)
Definition record_chunk (chunk : string) (joined : list JoinedRow)
    (nbr_good_cell_barcodes : Z) (stats_bucket : StatsBucket) : StatsBucket :=
  {| total_frag_count :=
       dict_set chunk (Z.of_nat (List.length joined))
                (total_frag_count stats_bucket);
     mean_frag_per_bc :=
       dict_set chunk (mean_frag_per_bc_of joined)
                (mean_frag_per_bc stats_bucket);
     median_uniq_frag_per_bc :=
       dict_set chunk (median_uniq_frag_per_bc_of joined)
                (median_uniq_frag_per_bc stats_bucket);
     cell_barcode_count :=
       dict_set chunk nbr_good_cell_barcodes
                (cell_barcode_count stats_bucket) |}.

(** Lines 153-193: the body of the loop, for one fraction. *)
Definition loop_body (good_cell_barcodes : list (string * Z))
    (nbr_good_cell_barcodes : Z) (fragments_all_df : DataFrame)
    (fraction : Q) (stats_bucket : StatsBucket) (g : rng)
  : result (StatsBucket * rng) :=
  let chunk := chunk_label fraction in
  '(joined, g') <-
    sample_for_good_bc good_cell_barcodes fragments_all_df fraction g ;;
  Ok (record_chunk chunk joined nbr_good_cell_barcodes stats_bucket, g').

(** Lines 152-193: the loop over the fractions. *)
Fixpoint sampling_loop (good_cell_barcodes : list (string * Z))
    (nbr_good_cell_barcodes : Z) (fragments_all_df : DataFrame)
    (todo : list Q) (stats_bucket : StatsBucket) (g : rng)
  : result (StatsBucket * rng) :=
  match todo with
  | [] => Ok (stats_bucket, g)
  | fraction :: rest =>
      '(stats_bucket', g') <-
        loop_body good_cell_barcodes nbr_good_cell_barcodes
                  fragments_all_df fraction stats_bucket g ;;
      sampling_loop good_cell_barcodes nbr_good_cell_barcodes
                    fragments_all_df rest stats_bucket' g'
  end.

(** [sub_sample_fragments], lines 115-200.  The arguments [n_chunk] and
    [whitelist] are not read by the function and writing [outfile] is
    left out; the random state is an argument and a result. *)
Definition sub_sample_fragments (fragments_df : DataFrame) (min_uniq_frag : Z)
    (g : rng) : result (list (string * StatsRow) * rng) :=
  let good_cell_barcodes := good_cell_barcodes_of fragments_df min_uniq_frag in
  let nbr_good_cell_barcodes := Z.of_nat (List.length good_cell_barcodes) in
  let fragments_all_df := explode_by_count fragments_df in
  '(stats_bucket, g') <-
    sampling_loop good_cell_barcodes nbr_good_cell_barcodes fragments_all_df
                  fractions init_bucket g ;;
  Ok (to_frame stats_bucket, g').

(** ** The predicates and the data of the statements *)

(** [first_at a v i]: position [i] of [a] holds the first item that is
    at least [v]. *)
Definition first_at (a : list Q) (v : Q) (i : nat) : Prop :=
  (exists y, nth_error a i = Some y /\ v <= y) /\
  forall j y, (j < i)%nat -> nth_error a j = Some y -> y < v.

(** [first_reaching grid f target x]: [x] is the first point of [grid]
    at which [f] is at least [target]. *)
Definition first_reaching (grid : list Q) (f : Q -> Q) (target x : Q) : Prop :=
  exists i,
    nth_error grid i = Some x /\ target <= f x /\
    forall j xj, (j < i)%nat -> nth_error grid j = Some xj -> f xj < target.

(** The number of records of the table that carry a barcode. *)
Definition records_of (bc : string) (df : DataFrame) : Z :=
  Z.of_nat (List.length (filter (fun r => String.eqb bc (CellBarcode r)) df)).

(** The population of the scenario: [n] records of one barcode, each
    with its own position and a duplicate count of 1. *)
Definition records_for (bc : string) (n : nat) : DataFrame :=
  map (fun i => {| Chromosome := "chr1"; Start := Z.of_nat i;
                   End_ := Z.of_nat i + 50; CellBarcode := bc;
                   FragmentCount := 1 |})
      (seq 0 n).

Definition scenario_population : DataFrame :=
  records_for "barcode1" 5 ++ records_for "barcode2" 250
  ++ records_for "barcode3" 300.

(** The statistics of one chunk: total, mean and median. *)
Definition chunk_stats (joined : list JoinedRow) : Z * option Q * option Q :=
  (Z.of_nat (List.length joined), mean_frag_per_bc_of joined,
   median_uniq_frag_per_bc_of joined).

Definition write_chunk (chunk : string) (v : Z * option Q * option Q)
    (nbr : Z) (b : StatsBucket) : StatsBucket :=
  {| total_frag_count := dict_set chunk (fst (fst v)) (total_frag_count b);
     mean_frag_per_bc := dict_set chunk (snd (fst v)) (mean_frag_per_bc b);
     median_uniq_frag_per_bc :=
       dict_set chunk (snd v) (median_uniq_frag_per_bc b);
     cell_barcode_count := dict_set chunk nbr (cell_barcode_count b) |}.

Fixpoint write_chunks (nbr : Z) (todo : list Q)
    (vals : list (Z * option Q * option Q)) (b : StatsBucket) : StatsBucket :=
  match todo, vals with
  | f :: todo', v :: vals' =>
      write_chunks nbr todo' vals' (write_chunk (chunk_label f) v nbr b)
  | _, _ => b
  end.

(** [drawn good all f v]: [v] holds the statistics of a sample of
    [all] at the fraction [f], joined to the good barcodes. *)
Definition drawn (good : list (string * Z)) (all : DataFrame) (f : Q)
    (v : Z * option Q * option Q) : Prop :=
  exists g0 sampled g1,
    sample f all g0 = Ok (sampled, g1) /\
    v = chunk_stats (left_join good sampled).

Definition chunk_labels : list string :=
  ["chunk 0"; "chunk 1"; "chunk 2"; "chunk 3"; "chunk 4"; "chunk 5";
   "chunk 6"; "chunk 7"; "chunk 8"; "chunk 9"; "chunk 10"]%string.

(** The table of a run without good barcodes. *)
Definition degenerate_table : list (string * StatsRow) :=
  ("chunk 0"%string,
   {| row_mean_frag_per_bc := Some 0;
      row_median_uniq_frag_per_bc := Some 0;
      row_total_frag_count := Some 0%Z;
      row_cell_barcode_count := Some 0%Z |})
  :: map (fun f =>
            (chunk_label f,
             {| row_mean_frag_per_bc := None;
                row_median_uniq_frag_per_bc := None;
                row_total_frag_count := Some 0%Z;
                row_cell_barcode_count := Some 0%Z |}))
         fractions.

(** The rows of a table that carry a barcode. *)
Definition rows_of (bc : string) (s : DataFrame) : DataFrame :=
  filter (fun r => String.eqb bc (CellBarcode r)) s.

(** Whether the barcode of a record is one of the good ones. *)
Definition in_good (good : list (string * Z)) (r : Fragment) : bool :=
  existsb (fun l => String.eqb (fst l) (CellBarcode r)) good.

(** ** The header of the fragments file *)

(** [c.isspace()] for a character below U+0100: the controls 9-13 and
    28-31, the space, U+0085 and U+00A0. *)
Definition is_space (c : ascii) : bool :=
  let n := nat_of_ascii c in
  (Nat.leb 9 n && Nat.leb n 13) || (Nat.leb 28 n && Nat.leb n 32)
  || Nat.eqb n 133 || Nat.eqb n 160.

(** [s.lstrip()], [s.rstrip()] and [s.strip()]. *)
Fixpoint lstrip (s : string) : string :=
  match s with
  | EmptyString => EmptyString
  | String c s' => if is_space c then lstrip s' else s
  end.

Fixpoint rstrip (s : string) : string :=
  match s with
  | EmptyString => EmptyString
  | String c s' =>
      match rstrip s' with
      | EmptyString => if is_space c then EmptyString else String c EmptyString
      | r => String c r
      end
  end.

Definition py_strip (s : string) : string := rstrip (lstrip s).

(** [s.startswith('#')]. *)
Definition startswith_hash (s : string) : bool :=
  match s with
  | String c _ => Ascii.eqb c "#"
  | EmptyString => false
  end.

(** [s.split(sep)] for a separator of one character. *)
Fixpoint py_split (sep : ascii) (s : string) : list string :=
  match s with
  | EmptyString => [EmptyString]
  | String c s' =>
      if Ascii.eqb c sep then EmptyString :: py_split sep s'
      else match py_split sep s' with
           | field :: fields => String c field :: fields
           | [] => [String c EmptyString]
           end
  end.

Definition tab : ascii := "009".

(** [not line or line.startswith('#')], on the stripped line (line 65). *)
Definition skipped_line (line : string) : bool :=
  match py_strip line with
  | EmptyString => true
  | stripped => startswith_hash stripped
  end.

(** Lines 57-73: the loop over the lines of the file, up to the first
    line that is neither empty nor a comment; the result is
    [(skip_rows, nbr_columns)]. *)
Fixpoint scan_header (lines : list string) (skip_rows : nat) : nat * nat :=
  match lines with
  | [] => (skip_rows, O)
  | line :: rest =>
      if skipped_line line then scan_header rest (S skip_rows)
      else (skip_rows, List.length (py_split tab (py_strip line)))
  end.

Section Reader.
(** [pl.read_csv(..., skip_rows=skip_rows, ...)] with the casts of lines
    82-98, on the lines of the file: polars' parser is not part of the
    repository. *)
Variable read_csv : list string -> nat -> result DataFrame.

(** [read_bc_and_counts_from_fragments_file], lines 34-100, on the text
    lines of the (decompressed) file. *)
Definition read_bc_and_counts_from_fragments_file (lines : list string)
  : result DataFrame :=
  let '(skip_rows, nbr_columns) := scan_header lines 0 in
  if Nat.ltb nbr_columns 5 then Raise ValueError
  else read_csv lines skip_rows.
End Reader.

(** The number of tabs of a string. *)
Fixpoint count_tabs (s : string) : nat :=
  match s with
  | EmptyString => O
  | String c s' => if Ascii.eqb c tab then S (count_tabs s') else count_tabs s'
  end.

(** A string of whitespace only. *)
Fixpoint all_space (s : string) : bool :=
  match s with
  | EmptyString => true
  | String c s' => is_space c && all_space s'
  end.

(** The row the table holds for a chunk whose statistics are [v]. *)
Definition chunk_row (nbr : Z) (v : Z * option Q * option Q) : StatsRow :=
  {| row_mean_frag_per_bc := snd (fst v);
     row_median_uniq_frag_per_bc := snd v;
     row_total_frag_count := Some (fst (fst v));
     row_cell_barcode_count := Some nbr |}.

(** * Properties *)

(** ** Comparisons *)

Lemma Qltb_lt (a b : Q) : Qltb a b = true <-> a < b.
Proof.
  unfold Qltb. rewrite negb_true_iff.
  split; intro H.
  - apply Qnot_le_lt. intro Hle.
    apply Qle_bool_iff in Hle. congruence.
  - destruct (Qle_bool b a) eqn:E; [|reflexivity].
    apply Qle_bool_iff in E. exfalso. apply (Qlt_not_le _ _ H E).
Qed.

Lemma Qltb_ge (a b : Q) : Qltb a b = false <-> b <= a.
Proof.
  unfold Qltb. rewrite negb_false_iff. apply Qle_bool_iff.
Qed.

Lemma Qgeb_ge (a b : Q) : Qgeb a b = true <-> b <= a.
Proof. apply Qle_bool_iff. Qed.

Lemma Qgeb_lt (a b : Q) : Qgeb a b = false <-> a < b.
Proof.
  unfold Qgeb. split; intro H.
  - apply Qltb_lt. unfold Qltb. now rewrite H.
  - apply Qltb_lt in H. unfold Qltb in H. now apply negb_true_iff in H.
Qed.

(** ** The model function *)

Lemma zip_div_map (f g : Q -> Q) (a : list Q) :
  zip_div (map f a) (map g a) = map (fun e => f e / g e) a.
Proof.
  induction a as [|e a IH]; simpl; [reflexivity|].
  now rewrite IH.
Qed.

Lemma MM_positive (Vmax Km : Q) (x : npval) :
  0 < Vmax -> 0 < Km ->
  MM x Vmax Km =
  match x with
  | NdArray a => NdArray (map (mm_at Vmax Km) a)
  | PyFloat q => PyFloat (mm_at Vmax Km q)
  end.
Proof.
  intros HV HK. unfold MM.
  apply Qltb_lt in HV. apply Qltb_lt in HK. rewrite HV, HK. simpl.
  destruct x as [a|q]; simpl; [|reflexivity].
  now rewrite zip_div_map.
Qed.

Lemma MM_sentinel (Vmax Km : Q) (x : npval) :
  Vmax <= 0 \/ Km <= 0 -> MM x Vmax Km = PyFloat sentinel.
Proof.
  intros H. unfold MM.
  destruct H as [H|H]; apply Qltb_ge in H; rewrite H.
  - reflexivity.
  - now rewrite andb_false_r.
Qed.

Lemma MM_array_inv (Vmax Km : Q) (x : npval) (a : list Q) :
  MM x Vmax Km = NdArray a -> 0 < Vmax /\ 0 < Km.
Proof.
  unfold MM.
  destruct (Qltb 0 Vmax) eqn:HV; destruct (Qltb 0 Km) eqn:HK; simpl;
    try discriminate.
  intros _. split; now apply Qltb_lt.
Qed.

(** C7. [MM] returns [Vmax * x / (Km + x)] whenever both [Vmax > 0] and
    [Km > 0] (item by item when [x] is an array), wherever that quotient
    is defined, that is for every [x] other than [- Km]; and it returns
    the sentinel [1e10] for every pair of parameters one of which is not
    positive, whatever [x] is. *)
Theorem MM_returns_model_or_sentinel (Vmax Km : Q) :
  (0 < Vmax /\ 0 < Km ->
   (forall q : Q,
       ~ Km + q == 0 ->
       MM (PyFloat q) Vmax Km = PyFloat ((Vmax * q) / (Km + q))) /\
   (forall a : list Q,
       Forall (fun q => ~ Km + q == 0) a ->
       MM (NdArray a) Vmax Km
       = NdArray (map (fun q => (Vmax * q) / (Km + q)) a))) /\
  (Vmax <= 0 \/ Km <= 0 ->
   forall x : npval, MM x Vmax Km = PyFloat (10000000000 # 1)).
Proof.
  split.
  - intros [HV HK]. split; intros v _.
    + exact (MM_positive Vmax Km (PyFloat v) HV HK).
    + exact (MM_positive Vmax Km (NdArray v) HV HK).
  - intros H x. exact (MM_sentinel Vmax Km x H).
Qed.

Lemma MM_returns_model_or_sentinel_witness :
  (0 < 1000 /\ 0 < 500) /\ ~ 500 + 500 == 0 /\
  MM (PyFloat 500) 1000 500 = PyFloat ((1000 * 500) / (500 + 500)) /\
  Forall (fun q => ~ 500 + q == 0) [100; 200] /\
  MM (NdArray [100; 200]) 1000 500
  = NdArray (map (fun q => (1000 * q) / (500 + q)) [100; 200]) /\
  (0 <= 0 \/ 500 <= 0) /\
  MM (NdArray [100; 200]) 0 500 = PyFloat (10000000000 # 1).
Proof.
  assert (Hp : 0 < 1000 /\ 0 < 500) by (split; reflexivity).
  assert (Hq : ~ 500 + 500 == 0) by (intros H; vm_compute in H; discriminate H).
  assert (Ha : Forall (fun q => ~ 500 + q == 0) [100; 200])
    by (repeat constructor; intros H; vm_compute in H; discriminate H).
  assert (Hn : 0 <= 0 \/ 500 <= 0) by (left; discriminate).
  split; [exact Hp|]. split; [exact Hq|].
  split; [exact (proj1 (proj1 (MM_returns_model_or_sentinel 1000 500) Hp) 500 Hq)|].
  split; [exact Ha|].
  split; [exact (proj2 (proj1 (MM_returns_model_or_sentinel 1000 500) Hp)
                       [100; 200] Ha)|].
  split; [exact Hn|].
  exact (proj2 (MM_returns_model_or_sentinel 0 500) Hn (NdArray [100; 200])).
Defined.

(** ** Maximum of a sequence *)

Lemma max_from_spec (a : list Q) (m : Q) :
  (max_from m a = m \/ In (max_from m a) a) /\
  m <= max_from m a /\
  Forall (fun y => y <= max_from m a) a.
Proof.
  revert m. induction a as [|x a IH]; intros m; simpl.
  - repeat split; [now left | apply Qle_refl | constructor].
  - destruct (Qltb m x) eqn:E.
    + destruct (IH x) as (Hin & Hle & Hall).
      apply Qltb_lt in E.
      repeat split.
      * right. destruct Hin as [->|Hin]; [now left | now right].
      * apply Qle_trans with x; [now apply Qlt_le_weak | exact Hle].
      * constructor; assumption.
    + destruct (IH m) as (Hin & Hle & Hall).
      apply Qltb_ge in E.
      repeat split.
      * destruct Hin as [->|Hin]; [now left | right; now right].
      * exact Hle.
      * constructor; [|exact Hall].
        apply Qle_trans with m; assumption.
Qed.

Lemma seq_max_spec (a : list Q) (top : Q) :
  seq_max a = Ok top -> In top a /\ Forall (fun y => y <= top) a.
Proof.
  destruct a as [|x a]; simpl; [discriminate|].
  intros H. injection H as <-.
  destruct (max_from_spec a x) as (Hin & Hle & Hall).
  split.
  - destruct Hin as [->|Hin]; [now left | now right].
  - constructor; assumption.
Qed.

Lemma seq_max_nonempty (a : list Q) :
  a <> [] -> exists top, seq_max a = Ok top.
Proof.
  destruct a as [|x a]; [congruence|].
  intros _. now exists (max_from x a).
Qed.

Lemma seq_max_error (a : list Q) (e : py_error) :
  seq_max a = Raise e -> a = [] /\ e = ValueError.
Proof.
  destruct a; simpl; [|discriminate].
  intros H. injection H as <-. now split.
Qed.

(** ** The first position at or above a target *)

Lemma where_ge_from_first (a : list Q) (v : Q) (k i : nat) :
  first_of (where_ge_from k a v) = Ok i ->
  exists j, i = (k + j)%nat /\ first_at a v j.
Proof.
  revert k. induction a as [|y a IH]; intros k; simpl; [discriminate|].
  destruct (Qgeb y v) eqn:E; simpl.
  - intros H. injection H as <-. exists O. split; [lia|].
    split.
    + exists y. split; [reflexivity | now apply Qgeb_ge].
    + intros j y' Hj. lia.
  - intros H. destruct (IH _ H) as (j & -> & (Hy & Hbefore)).
    exists (S j). split; [lia|]. split; [exact Hy|].
    intros [|j'] y' Hj Hn; simpl in Hn.
    + injection Hn as <-. now apply Qgeb_lt.
    + apply (Hbefore j'); [lia | exact Hn].
Qed.

Lemma where_ge_from_none (a : list Q) (v : Q) (k : nat) (e : py_error) :
  first_of (where_ge_from k a v) = Raise e ->
  e = IndexError /\ Forall (fun y => y < v) a.
Proof.
  revert k. induction a as [|y a IH]; intros k; simpl.
  - intros H. injection H as <-. split; [reflexivity | constructor].
  - destruct (Qgeb y v) eqn:E; simpl; [discriminate|].
    intros H. destruct (IH _ H) as [-> Hall].
    split; [reflexivity|]. constructor; [now apply Qgeb_lt | exact Hall].
Qed.

Lemma where_ge_from_all_below (a : list Q) (v : Q) (k : nat) :
  Forall (fun y => y < v) a -> where_ge_from k a v = [].
Proof.
  intros H. revert k. induction H as [|y a Hy _ IH]; intros k; simpl.
  - reflexivity.
  - apply Qgeb_lt in Hy. rewrite Hy. apply IH.
Qed.

Lemma first_at_unique (a : list Q) (v : Q) (i j : nat) :
  first_at a v i -> first_at a v j -> i = j.
Proof.
  intros [(yi & Hi & Hvi) Bi] [(yj & Hj & Hvj) Bj].
  destruct (Nat.lt_trichotomy i j) as [H|[H|H]]; [|exact H|].
  - exfalso. apply (Qlt_not_le _ _ (Bj i yi H Hi) Hvi).
  - exfalso. apply (Qlt_not_le _ _ (Bi j yj H Hj) Hvj).
Qed.

Lemma first_at_exists (a : list Q) (v : Q) :
  Exists (fun y => v <= y) a ->
  exists i, first_of (np_where_ge a v) = Ok i.
Proof.
  intros H. destruct (first_of (np_where_ge a v)) as [i|e] eqn:E.
  - now exists i.
  - apply where_ge_from_none in E. destruct E as [_ Hall].
    apply Exists_exists in H. destruct H as (y & Hin & Hy).
    rewrite Forall_forall in Hall.
    exfalso. apply (Qlt_not_le _ _ (Hall y Hin) Hy).
Qed.

Lemma np_where_first (a : list Q) (v : Q) (i : nat) :
  first_of (np_where_ge a v) = Ok i -> first_at a v i.
Proof.
  intros H. apply where_ge_from_first in H.
  destruct H as (j & -> & Hj). exact Hj.
Qed.

(** A first position in a prefix is the first position in the whole. *)
Lemma first_at_firstn (a : list Q) (v : Q) (n i : nat) :
  first_at (firstn n a) v i -> first_at a v i /\ (i < n)%nat.
Proof.
  intros [(y & Hy & Hv) Hb].
  assert (Hi : (i < n)%nat).
  { assert (Hl : (i < List.length (firstn n a))%nat)
      by (apply nth_error_Some; congruence).
    rewrite length_firstn in Hl. lia. }
  split; [|exact Hi]. split.
  - exists y. split; [|exact Hv].
    rewrite nth_error_firstn in Hy.
    destruct (Nat.ltb_spec i n); [exact Hy | lia].
  - intros j y' Hj Hn. apply (Hb j y' Hj).
    rewrite nth_error_firstn.
    destruct (Nat.ltb_spec j n); [exact Hn | lia].
Qed.

(** ** Reading a marker off the curve *)

Lemma item_ok (a : list Q) (i : nat) (x : Q) :
  item a i = Ok x <-> nth_error a i = Some x.
Proof.
  unfold item. destruct (nth_error a i); split; intros H;
    try discriminate; congruence.
Qed.

Lemma mark_at_ok (xs ys : list Q) (target x y : Q) :
  mark_at xs ys target = Ok (x, y) ->
  exists i, first_at ys target i /\
            nth_error xs i = Some x /\ nth_error ys i = Some y.
Proof.
  unfold mark_at.
  destruct (first_of (np_where_ge ys target)) as [i|e] eqn:E; simpl;
    [|discriminate].
  destruct (item xs i) as [x'|] eqn:Ex; simpl; [|discriminate].
  destruct (item ys i) as [y'|] eqn:Ey; simpl; [|discriminate].
  intros H. injection H as <- <-.
  exists i. repeat split.
  - apply np_where_first in E. apply E.
  - apply np_where_first in E. apply E.
  - now apply item_ok.
  - now apply item_ok.
Qed.

Lemma mark_at_reached (xs ys : list Q) (target : Q) :
  List.length xs = List.length ys ->
  Exists (fun y => target <= y) ys ->
  exists x y, mark_at xs ys target = Ok (x, y).
Proof.
  intros Hlen Hex.
  destruct (first_at_exists ys target Hex) as (i & Hi).
  pose proof (np_where_first _ _ _ Hi) as [(y & Hy & _) _].
  assert (Hlt : (i < List.length xs)%nat).
  { rewrite Hlen. apply nth_error_Some. congruence. }
  destruct (nth_error xs i) as [x|] eqn:Hx.
  - exists x, y. unfold mark_at. rewrite Hi. simpl.
    unfold item. rewrite Hx, Hy. reflexivity.
  - apply nth_error_None in Hx. lia.
Qed.

Lemma mark_at_unreached (xs ys : list Q) (target : Q) :
  Forall (fun y => y < target) ys ->
  mark_at xs ys target = Raise IndexError.
Proof.
  intros H. unfold mark_at, np_where_ge.
  now rewrite (where_ge_from_all_below ys target 0 H).
Qed.

(** ** The loop over the percentages *)

Lemma mark_percentages_total (Vmax : Q) (xs ys : list Q) (top : Q)
    (percentages : list Q) :
  List.length xs = List.length ys ->
  seq_max ys = Ok top ->
  exists marks,
    mark_percentages Vmax xs ys percentages = Ok marks /\
    map (fun m => fst (fst m)) marks
    = filter (fun p => Qltb (Vmax * p) top) percentages /\
    forall p x y, In (p, x, y) marks -> mark_at xs ys (Vmax * p) = Ok (x, y).
Proof.
  intros Hlen Htop.
  induction percentages as [|p rest IH]; simpl.
  - exists []. repeat split. intros p x y [].
  - destruct IH as (marks & Hrun & Hfst & Hmarks).
    rewrite Htop. simpl.
    destruct (Qltb (Vmax * p) top) eqn:E.
    + assert (Hex : Exists (fun y => Vmax * p <= y) ys).
      { apply Exists_exists. exists top. split.
        - apply (seq_max_spec _ _ Htop).
        - apply Qlt_le_weak. now apply Qltb_lt. }
      destruct (mark_at_reached xs ys _ Hlen Hex) as (x & y & Hxy).
      rewrite Hxy. simpl. rewrite Hrun. simpl.
      exists ((p, x, y) :: marks). repeat split.
      * simpl. now rewrite Hfst.
      * intros p' x' y' [H|H].
        -- injection H as <- <- <-. exact Hxy.
        -- now apply Hmarks.
    + exists marks. repeat split; assumption.
Qed.

(** ** The extrapolation grid and its truncation *)

Lemma np_linspace_length (start stop : Q) (num : nat) :
  List.length (np_linspace start stop num) = num.
Proof. unfold np_linspace. now rewrite length_map, length_seq. Qed.

Lemma extrapolation_grid_length (x_data grid : list Q) :
  extrapolation_grid x_data = Ok grid -> List.length grid = 500%nat.
Proof.
  unfold extrapolation_grid.
  destruct (seq_max x_data) as [mx|e]; simpl; [|discriminate].
  intros H. injection H as <-. apply np_linspace_length.
Qed.

Lemma fitted_curve_unfold (Vmax Km : Q) (x_data grid : list Q) :
  0 < Vmax -> 0 < Km ->
  extrapolation_grid x_data = Ok grid ->
  fitted_curve (Vmax, Km) x_data =
  (top <- seq_max (map (mm_at Vmax Km) grid) ;;
   if Qltb (Vmax * (95 # 100)) top then
     x_coef <- first_of (np_where_ge (map (mm_at Vmax Km) grid)
                                     (Vmax * (95 # 100))) ;;
     Ok (firstn x_coef grid, firstn x_coef (map (mm_at Vmax Km) grid))
   else Ok (grid, map (mm_at Vmax Km) grid)).
Proof.
  intros HV HK Hg. unfold fitted_curve. rewrite Hg. simpl.
  rewrite (MM_positive Vmax Km (NdArray grid) HV HK). reflexivity.
Qed.

Lemma fitted_curve_positive (Vmax Km : Q) (x_data xs ys : list Q) :
  fitted_curve (Vmax, Km) x_data = Ok (xs, ys) ->
  0 < Vmax /\ 0 < Km /\ exists grid, extrapolation_grid x_data = Ok grid.
Proof.
  unfold fitted_curve.
  destruct (extrapolation_grid x_data) as [grid|e]; simpl; [|discriminate].
  destruct (MM (NdArray grid) Vmax Km) as [a|q] eqn:E; [|discriminate].
  intros _. destruct (MM_array_inv _ _ _ _ E) as [HV HK].
  repeat split; try assumption. now exists grid.
Qed.

(** The curve read by the markers is the whole grid, or its part before
    the first point at or above [0.95 * Vmax]. *)
Lemma fitted_curve_cases (Vmax Km : Q) (x_data xs ys : list Q) :
  fitted_curve (Vmax, Km) x_data = Ok (xs, ys) ->
  exists grid top,
    extrapolation_grid x_data = Ok grid /\
    seq_max (map (mm_at Vmax Km) grid) = Ok top /\
    ((Vmax * (95 # 100) < top /\
      exists k, first_at (map (mm_at Vmax Km) grid) (Vmax * (95 # 100)) k /\
                xs = firstn k grid /\
                ys = firstn k (map (mm_at Vmax Km) grid))
     \/ (top <= Vmax * (95 # 100) /\
         xs = grid /\ ys = map (mm_at Vmax Km) grid)).
Proof.
  intros H.
  destruct (fitted_curve_positive _ _ _ _ _ H) as (HV & HK & grid & Hg).
  rewrite (fitted_curve_unfold _ _ _ _ HV HK Hg) in H.
  destruct (seq_max (map (mm_at Vmax Km) grid)) as [top|e] eqn:Et;
    simpl in H; [|discriminate].
  exists grid, top. split; [exact Hg|]. split; [exact Et|].
  destruct (Qltb (Vmax * (95 # 100)) top) eqn:Ec.
  - left. split; [now apply Qltb_lt|].
    destruct (first_of (np_where_ge (map (mm_at Vmax Km) grid)
                                    (Vmax * (95 # 100)))) as [k|e] eqn:Ek;
      simpl in H; [|discriminate].
    injection H as <- <-. exists k.
    split; [now apply np_where_first | split; reflexivity].
  - right. injection H as <- <-.
    split; [now apply Qltb_ge | split; reflexivity].
Qed.

(** The curve is the model on a prefix of the grid. *)
Lemma fitted_curve_prefix (Vmax Km : Q) (x_data xs ys : list Q) :
  fitted_curve (Vmax, Km) x_data = Ok (xs, ys) ->
  exists grid n,
    extrapolation_grid x_data = Ok grid /\
    xs = firstn n grid /\ ys = map (mm_at Vmax Km) xs.
Proof.
  intros H. destruct (fitted_curve_cases _ _ _ _ _ H)
    as (grid & top & Hg & _ & [(_ & k & _ & -> & ->)|(_ & -> & ->)]).
  - exists grid, k. repeat split; [exact Hg|]. now rewrite firstn_map.
  - exists grid, (List.length grid). repeat split; [exact Hg|].
    now rewrite firstn_all.
Qed.

(** After a truncation every value of the curve is below
    [0.95 * Vmax]; without one, none is above it. *)
Lemma fitted_curve_below (Vmax Km : Q) (x_data xs ys : list Q) :
  fitted_curve (Vmax, Km) x_data = Ok (xs, ys) ->
  Forall (fun y => y <= Vmax * (95 # 100)) ys.
Proof.
  intros H. destruct (fitted_curve_cases _ _ _ _ _ H)
    as (grid & top & Hg & Htop & [(_ & k & Hk & _ & ->)|(Hle & _ & ->)]).
  - apply Forall_forall. intros y Hin.
    apply In_nth_error in Hin. destruct Hin as (j & Hj).
    assert (Hjk : (j < k)%nat).
    { assert (Hl : (j < List.length (firstn k (map (mm_at Vmax Km) grid)))%nat)
        by (apply nth_error_Some; congruence).
      rewrite length_firstn in Hl. lia. }
    rewrite nth_error_firstn in Hj.
    destruct (Nat.ltb_spec j k); [|lia].
    apply Qlt_le_weak. destruct Hk as [_ Hb]. now apply (Hb j).
  - destruct (seq_max_spec _ _ Htop) as [_ Hall].
    eapply Forall_impl; [|exact Hall].
    intros y Hy. simpl in Hy. now apply Qle_trans with top.
Qed.

(** ** The grid ascends *)

Lemma py_int_nonneg (q : Q) : 0 <= q -> (0 <= py_int q)%Z.
Proof.
  intros H. unfold py_int. apply Z.quot_pos; [|reflexivity].
  unfold Qle in H. simpl in H. lia.
Qed.

Lemma np_linspace_nth (start stop : Q) (num i : nat) (x : Q) :
  nth_error (np_linspace start stop num) i = Some x ->
  x = start + inject_Z (Z.of_nat i)
              * ((stop - start) / inject_Z (Z.of_nat (num - 1))).
Proof.
  unfold np_linspace. rewrite nth_error_map.
  destruct (nth_error (seq 0 num) i) as [k|] eqn:E; simpl; [|discriminate].
  intros H. injection H as <-.
  assert (Hi : (i < List.length (seq 0 num))%nat)
    by (apply nth_error_Some; congruence).
  rewrite length_seq in Hi.
  rewrite (nth_error_nth' _ O) in E by (rewrite length_seq; exact Hi).
  rewrite seq_nth in E by exact Hi. injection E as <-. reflexivity.
Qed.

Lemma np_linspace_ascends (stop : Q) (num i j : nat) (xi xj : Q) :
  0 <= stop -> (i <= j)%nat ->
  nth_error (np_linspace 0 stop num) i = Some xi ->
  nth_error (np_linspace 0 stop num) j = Some xj ->
  xi <= xj.
Proof.
  intros Hs Hij Hi Hj.
  apply np_linspace_nth in Hi. apply np_linspace_nth in Hj. subst xi xj.
  apply Qplus_le_r. apply Qmult_le_compat_r.
  - rewrite <- Zle_Qle. lia.
  - unfold Qdiv. apply Qmult_le_0_compat.
    + unfold Qminus. rewrite Qplus_0_r. exact Hs.
    + apply Qinv_le_0_compat. change 0 with (inject_Z 0).
      rewrite <- Zle_Qle. lia.
Qed.

Lemma extrapolation_grid_ascends (x_data grid : list Q) (i j : nat)
    (xi xj : Q) :
  Forall (fun d => 0 <= d) x_data ->
  extrapolation_grid x_data = Ok grid ->
  (i <= j)%nat ->
  nth_error grid i = Some xi -> nth_error grid j = Some xj -> xi <= xj.
Proof.
  intros Hpos Hg. unfold extrapolation_grid in Hg.
  destruct (seq_max x_data) as [mx|e] eqn:Em; simpl in Hg; [|discriminate].
  injection Hg as <-.
  apply np_linspace_ascends.
  change 0 with (inject_Z 0). rewrite <- Zle_Qle. apply py_int_nonneg.
  apply Qmult_le_0_compat; [|discriminate].
  destruct (seq_max_spec _ _ Em) as [Hin _].
  rewrite Forall_forall in Hpos. now apply Hpos.
Qed.

(** ** [fit_MM] step by step *)

Lemma fit_MM_inv (best_fit_ab : Q * Q) (x_data y_data percentages : list Q)
    (fig : Figure) :
  fit_MM best_fit_ab x_data y_data percentages = Ok fig ->
  exists xs ys observed cur,
    fitted_curve best_fit_ab x_data = Ok (xs, ys) /\
    seq_max y_data = Ok observed /\
    mark_at xs ys observed = Ok cur /\
    mark_percentages (fst best_fit_ab) xs ys percentages = Ok (fig_marks fig) /\
    fig_current fig = cur.
Proof.
  unfold fit_MM.
  destruct (fitted_curve best_fit_ab x_data) as [[xs ys]|e] eqn:Ec; simpl;
    [|discriminate].
  destruct (seq_max y_data) as [observed|e] eqn:Eo; simpl; [|discriminate].
  destruct (mark_at xs ys observed) as [[x_coef y_coef]|e] eqn:Em; simpl;
    [|discriminate].
  destruct (last_item xs) as [anchor|e]; simpl; [|discriminate].
  destruct (mark_percentages (fst best_fit_ab) xs ys percentages)
    as [marks|e] eqn:Ep; simpl; [|discriminate].
  intros H. injection H as <-. simpl.
  exists xs, ys, observed, (x_coef, y_coef).
  split; [reflexivity|]. split; [reflexivity|]. split; [exact Em|].
  split; [exact Ep | reflexivity].
Qed.



(** ** Percentage inversion *)

Lemma curve_mark_on_grid (Vmax Km : Q) (x_data grid xs ys : list Q)
    (target x y : Q) :
  extrapolation_grid x_data = Ok grid ->
  fitted_curve (Vmax, Km) x_data = Ok (xs, ys) ->
  mark_at xs ys target = Ok (x, y) ->
  y = mm_at Vmax Km x /\ first_reaching grid (mm_at Vmax Km) target x.
Proof.
  intros Hg Hc Hm.
  destruct (fitted_curve_prefix _ _ _ _ _ Hc) as (grid' & n & Hg' & Hxs & Hys).
  assert (grid' = grid) by congruence. subst grid'.
  destruct (mark_at_ok _ _ _ _ _ Hm) as (i & Hfirst & Hx & Hy).
  assert (Hyx : y = mm_at Vmax Km x).
  { rewrite Hys, nth_error_map, Hx in Hy. simpl in Hy. congruence. }
  split; [exact Hyx|].
  rewrite Hys, Hxs, <- firstn_map in Hfirst.
  apply first_at_firstn in Hfirst. destruct Hfirst as [[(y' & Hy' & Hv) Hb] Hin].
  exists i.
  assert (Hgi : nth_error grid i = Some x).
  { rewrite Hxs, nth_error_firstn in Hx.
    destruct (Nat.ltb_spec i n); [exact Hx | lia]. }
  split; [exact Hgi|]. split.
  - rewrite nth_error_map, Hgi in Hy'. simpl in Hy'.
    injection Hy' as <-. exact Hv.
  - intros j xj Hj Hn. apply (Hb j); [exact Hj|].
    rewrite nth_error_map, Hn. reflexivity.
Qed.




(** ** The truncation below [0.95 * Vmax] *)

Lemma fit_MM_marks (Vmax Km : Q) (x_data y_data percentages : list Q)
    (fig : Figure) :
  fit_MM (Vmax, Km) x_data y_data percentages = Ok fig ->
  exists xs ys top,
    fitted_curve (Vmax, Km) x_data = Ok (xs, ys) /\
    seq_max ys = Ok top /\
    forall p x y, In (p, x, y) (fig_marks fig) ->
                  Vmax * p < top /\ mark_at xs ys (Vmax * p) = Ok (x, y).
Proof.
  intros H.
  destruct (fit_MM_inv _ _ _ _ _ H)
    as (xs & ys & observed & [cx cy] & Hc & Ho & Hm & Hp & _).
  simpl in Hp.
  destruct (fitted_curve_prefix _ _ _ _ _ Hc) as (grid & n & Hg & Hxs & Hys).
  assert (Hlen : List.length xs = List.length ys)
    by (rewrite Hys; now rewrite length_map).
  destruct (mark_at_ok _ _ _ _ _ Hm) as (i & _ & _ & Hy).
  assert (Hne : ys <> []) by (intros ->; destruct i; discriminate).
  destruct (seq_max_nonempty ys Hne) as (top & Htop).
  destruct (mark_percentages_total Vmax xs ys top percentages Hlen Htop)
    as (marks & Hrun & Hfst & Hmarks).
  assert (marks = fig_marks fig) by congruence. subst marks.
  exists xs, ys, top. split; [exact Hc|]. split; [exact Htop|].
  intros p x y Hin. split; [|now apply Hmarks].
  assert (Hp' : In p (map (fun m => fst (fst m)) (fig_marks fig))).
  { apply in_map_iff. now exists (p, x, y). }
  rewrite Hfst in Hp'. apply filter_In in Hp'. now apply Qltb_lt.
Qed.

Lemma fitted_curve_total (Vmax Km : Q) (x_data grid : list Q) :
  0 < Vmax -> 0 < Km ->
  extrapolation_grid x_data = Ok grid ->
  exists xs ys, fitted_curve (Vmax, Km) x_data = Ok (xs, ys).
Proof.
  intros HV HK Hg. rewrite (fitted_curve_unfold _ _ _ _ HV HK Hg).
  assert (Hne : map (mm_at Vmax Km) grid <> []).
  { pose proof (extrapolation_grid_length _ _ Hg) as Hl.
    destruct grid; [discriminate | discriminate]. }
  destruct (seq_max_nonempty _ Hne) as (top & Htop).
  rewrite Htop. simpl.
  destruct (Qltb (Vmax * (95 # 100)) top) eqn:E; [|eauto].
  assert (Hex : Exists (fun y => Vmax * (95 # 100) <= y)
                       (map (mm_at Vmax Km) grid)).
  { apply Exists_exists. exists top. split.
    - apply (seq_max_spec _ _ Htop).
    - apply Qlt_le_weak. now apply Qltb_lt. }
  destruct (first_at_exists _ _ Hex) as (k & Hk).
  rewrite Hk. simpl. eauto.
Qed.

(** A truncated curve lies strictly below [0.95 * Vmax]. *)
Lemma fitted_curve_truncated_below (Vmax Km : Q) (x_data xs ys : list Q) :
  fitted_curve (Vmax, Km) x_data = Ok (xs, ys) ->
  (List.length ys < 500)%nat ->
  Forall (fun y => y < Vmax * (95 # 100)) ys.
Proof.
  intros H Hshort. destruct (fitted_curve_cases _ _ _ _ _ H)
    as (grid & top & Hg & Htop & [(_ & k & Hk & _ & ->)|(Hle & _ & ->)]).
  - apply Forall_forall. intros y Hin.
    apply In_nth_error in Hin. destruct Hin as (j & Hj).
    assert (Hjk : (j < k)%nat).
    { assert (Hl : (j < List.length (firstn k (map (mm_at Vmax Km) grid)))%nat)
        by (apply nth_error_Some; congruence).
      rewrite length_firstn in Hl. lia. }
    rewrite nth_error_firstn in Hj.
    destruct (Nat.ltb_spec j k); [|lia].
    destruct Hk as [_ Hb]. now apply (Hb j).
  - rewrite length_map, (extrapolation_grid_length _ _ Hg) in Hshort. lia.
Qed.

(** The grid from 0 to 100 reaches [0.95 * 20]: an instance where a
    requested 0.95 lies on the untruncated grid and is not resolved. *)
Lemma unresolved_on_grid_instance :
  exists grid fig,
    extrapolation_grid [5 # 100; 1] = Ok grid /\
    fit_MM (20, 1) [5 # 100; 1] [1; 18] [95 # 100] = Ok fig /\
    Exists (fun x => 20 * (95 # 100) <= mm_at 20 1 x) grid /\
    fig_marks fig = [].
Proof.
  eexists. eexists.
  split; [vm_compute; reflexivity|].
  split; [vm_compute; reflexivity|].
  split; [|reflexivity].
  apply Exists_exists.
  assert (H : existsb (fun x => Qle_bool (20 * (95 # 100)) (mm_at 20 1 x))
                      (np_linspace 0 (inject_Z (py_int (1 * 100))) 500) = true)
    by (vm_compute; reflexivity).
  apply existsb_exists in H. destruct H as (x & Hin & Hx).
  exists x. split; [|now apply Qle_bool_iff].
  vm_compute in Hin |- *. exact Hin.
Qed.


(** C9, as the code has it.  For positive fit parameters, whenever the
    model somewhere on the 500-point grid exceeds [0.95 * Vmax], the
    curve the markers are read from is the grid cut to the points
    strictly before the first one at which the model reaches
    [0.95 * Vmax]; when the model nowhere exceeds that value the grid is
    kept whole.  The percentages are inverted on that curve: a marker is
    its first point at or above [Vmax * p], so that a [p] with
    [Vmax * p] at or above the maximum of that curve, in particular any
    [p >= 0.95], gets no marker, and this also where the whole grid
    does reach [Vmax * p]. *)
Theorem fit_MM_reads_truncated_curve (Vmax Km : Q) (x_data grid : list Q) :
  0 < Vmax -> 0 < Km ->
  extrapolation_grid x_data = Ok grid ->
  (exists xs ys top,
     seq_max (map (mm_at Vmax Km) grid) = Ok top /\
     fitted_curve (Vmax, Km) x_data = Ok (xs, ys) /\
     (Vmax * (95 # 100) < top ->
      exists k,
        first_at (map (mm_at Vmax Km) grid) (Vmax * (95 # 100)) k /\
        xs = firstn k grid /\ ys = firstn k (map (mm_at Vmax Km) grid)) /\
     (top <= Vmax * (95 # 100) ->
      xs = grid /\ ys = map (mm_at Vmax Km) grid) /\
     forall y_data percentages fig,
       fit_MM (Vmax, Km) x_data y_data percentages = Ok fig ->
       (forall p x y, In (p, x, y) (fig_marks fig) ->
          exists i, first_at ys (Vmax * p) i /\
                    nth_error xs i = Some x /\ nth_error ys i = Some y) /\
       (forall p, Forall (fun y => y <= Vmax * p) ys ->
                  forall x y, ~ In (p, x, y) (fig_marks fig)) /\
       (forall p, 95 # 100 <= p ->
                  forall x y, ~ In (p, x, y) (fig_marks fig))) /\
  (exists grid' fig',
     extrapolation_grid [5 # 100; 1] = Ok grid' /\
     fit_MM (20, 1) [5 # 100; 1] [1; 18] [95 # 100] = Ok fig' /\
     Exists (fun x => 20 * (95 # 100) <= mm_at 20 1 x) grid' /\
     fig_marks fig' = []).
Proof.
  intros HV HK Hg. split; [|exact unresolved_on_grid_instance].
  destruct (fitted_curve_total _ _ _ _ HV HK Hg) as (xs & ys & Hc).
  destruct (fitted_curve_cases _ _ _ _ _ Hc) as (grid' & top & Hg' & Htop & Hcases).
  assert (grid' = grid) by congruence. subst grid'.
  exists xs, ys, top. split; [exact Htop|]. split; [exact Hc|].
  split; [|split].
  - intros Hlt. destruct Hcases as [(_ & k & Hk)|(Hle & _)].
    + now exists k.
    + exfalso. apply (Qlt_not_le _ _ Hlt Hle).
  - intros Hle. destruct Hcases as [(Hlt & _)|(_ & Heq)].
    + exfalso. apply (Qlt_not_le _ _ Hlt Hle).
    + exact Heq.
  - intros y_data percentages fig Hfit.
    destruct (fit_MM_marks _ _ _ _ _ _ Hfit) as (xs' & ys' & top' & Hc' & Htop' & Hm).
    assert (Heq : (xs', ys') = (xs, ys)) by congruence.
    injection Heq as -> ->.
    assert (Hskip : forall p, Forall (fun y => y <= Vmax * p) ys ->
                              forall x y, ~ In (p, x, y) (fig_marks fig)).
    { intros p Hall x y Hin. destruct (Hm p x y Hin) as [Hlt _].
      destruct (seq_max_spec _ _ Htop') as [Hin' _].
      rewrite Forall_forall in Hall.
      apply (Qlt_not_le _ _ Hlt (Hall top' Hin')). }
    split; [|split].
    + intros p x y Hin. destruct (Hm p x y Hin) as [_ Hmark].
      exact (mark_at_ok _ _ _ _ _ Hmark).
    + exact Hskip.
    + intros p Hp. apply Hskip.
      eapply Forall_impl; [|exact (fitted_curve_below _ _ _ _ _ Hc)].
      intros y Hy. simpl in Hy.
      apply Qle_trans with (Vmax * (95 # 100)); [exact Hy|].
      now apply Qmult_le_l.
Qed.

Lemma fit_MM_reads_truncated_curve_witness :
  exists grid,
    extrapolation_grid [5 # 100; 1] = Ok grid /\
    exists xs ys, fitted_curve (20, 1) [5 # 100; 1] = Ok (xs, ys).
Proof.
  destruct (extrapolation_grid [5 # 100; 1]) as [grid|e] eqn:E.
  - exists grid. split; [reflexivity|].
    assert (HV : 0 < 20) by reflexivity.
    assert (HK : 0 < 1) by reflexivity.
    destruct (fit_MM_reads_truncated_curve 20 1 _ grid HV HK E)
      as [(xs & ys & top & _ & Hc & _) _].
    now exists xs, ys.
  - vm_compute in E. discriminate E.
Defined.

(** C9 as stated fails where the model only touches [0.95 * Vmax]: with
    [Vmax = 20], [Km = 1] and depths up to 25/128 the grid ends at 19,
    its last point (position 499) is the first at which the model
    reaches [0.95 * Vmax = 19], and the curve is not cut to the points
    before it. *)
Lemma grid_touching_threshold_not_truncated :
  exists grid k,
    extrapolation_grid [1 # 8; 25 # 128] = Ok grid /\
    first_of (np_where_ge (map (mm_at 20 1) grid) (20 * (95 # 100))) = Ok k /\
    fitted_curve (20, 1) [1 # 8; 25 # 128]
    <> Ok (firstn k grid, firstn k (map (mm_at 20 1) grid)).
Proof.
  eexists. exists 499%nat.
  split; [vm_compute; reflexivity|].
  split; [vm_compute; reflexivity|].
  intros H.
  apply (f_equal (fun r => match r with
                           | Ok (a, _) => List.length a
                           | Raise _ => O
                           end)) in H.
  vm_compute in H. discriminate H.
Qed.

(** ** The marker of the current saturation *)

(** C10, as the code has it.  The lookup of the current saturation has
    no guard: whenever the greatest observed [y] exceeds every value of
    the (possibly truncated) fitted curve, [fit_MM] raises [IndexError].
    This is so when the greatest observed [y] is above [0.95 * Vmax],
    and when it equals [0.95 * Vmax] and the curve was truncated. *)
Theorem fit_MM_current_saturation_unguarded (Vmax Km : Q)
    (x_data y_data percentages xs ys : list Q) (observed : Q) :
  fitted_curve (Vmax, Km) x_data = Ok (xs, ys) ->
  seq_max y_data = Ok observed ->
  (Forall (fun y => y < observed) ys ->
   fit_MM (Vmax, Km) x_data y_data percentages = Raise IndexError) /\
  (Vmax * (95 # 100) < observed ->
   fit_MM (Vmax, Km) x_data y_data percentages = Raise IndexError) /\
  (Vmax * (95 # 100) <= observed -> (List.length ys < 500)%nat ->
   fit_MM (Vmax, Km) x_data y_data percentages = Raise IndexError).
Proof.
  intros Hc Ho.
  assert (Hmain : Forall (fun y => y < observed) ys ->
                  fit_MM (Vmax, Km) x_data y_data percentages = Raise IndexError).
  { intros Hall. unfold fit_MM. rewrite Hc. simpl. rewrite Ho. simpl.
    now rewrite (mark_at_unreached xs ys observed Hall). }
  split; [exact Hmain|]. split.
  - intros Hlt. apply Hmain.
    eapply Forall_impl; [|exact (fitted_curve_below _ _ _ _ _ Hc)].
    intros y Hy. simpl in Hy. now apply Qle_lt_trans with (Vmax * (95 # 100)).
  - intros Hle Hshort. apply Hmain.
    eapply Forall_impl; [|exact (fitted_curve_truncated_below _ _ _ _ _ Hc Hshort)].
    intros y Hy. simpl in Hy. now apply Qlt_le_trans with (Vmax * (95 # 100)).
Qed.

Lemma fit_MM_current_saturation_unguarded_witness :
  seq_max [1; 19] = Ok 19 /\ 20 * (95 # 100) <= 19 /\
  fit_MM (20, 1) [5 # 100; 1] [1; 19] [3 # 10] = Raise IndexError.
Proof.
  assert (Hc : exists xs ys,
             fitted_curve (20, 1) [5 # 100; 1] = Ok (xs, ys) /\
             (List.length ys < 500)%nat).
  { eexists. eexists. split; [vm_compute; reflexivity|].
    vm_compute. lia. }
  destruct Hc as (xs & ys & Hc & Hshort).
  assert (Ho : seq_max [1; 19] = Ok 19) by reflexivity.
  assert (Hle : 20 * (95 # 100) <= 19) by discriminate.
  split; [exact Ho|]. split; [exact Hle|].
  exact (proj2 (proj2 (fit_MM_current_saturation_unguarded
                         20 1 _ [1; 19] [3 # 10] xs ys 19 Hc Ho))
               Hle Hshort).
Defined.

(** C10 as stated fails at the edge of its example: with [Vmax = 20],
    [Km = 1] and depths up to 25/128 the curve is not truncated and ends
    at [0.95 * Vmax = 19]; a greatest observed [y] of 19 is at least
    [0.95 * Vmax] and [fit_MM] returns. *)
Lemma observed_at_threshold_returns :
  exists fig,
    seq_max [1; 19] = Ok 19 /\ 20 * (95 # 100) <= 19 /\
    fit_MM (20, 1) [1 # 8; 25 # 128] [1; 19] [3 # 10] = Ok fig.
Proof.
  eexists. split; [reflexivity|]. split; [discriminate|].
  vm_compute. reflexivity.
Qed.

(** ** Grouping *)

Section GroupByFacts.
Context {A K : Type}.
Variable eqb : K -> K -> bool.
Variable key : A -> K.
Hypothesis eqb_eq : forall a b, eqb a b = true <-> a = b.

Lemma distinct_incl (ks : list K) (k : K) :
  In k (distinct eqb ks) -> In k ks.
Proof.
  induction ks as [|h t IH]; simpl; [tauto|].
  intros [->|H]; [now left|].
  apply filter_In in H. right. apply IH. apply H.
Qed.

Lemma distinct_In (ks : list K) (k : K) :
  In k (distinct eqb ks) <-> In k ks.
Proof.
  split; [apply distinct_incl|].
  induction ks as [|h t IH]; simpl; [tauto|].
  intros [->|H]; [now left|].
  destruct (eqb h k) eqn:E.
  - left. now apply eqb_eq.
  - right. apply filter_In. split; [now apply IH | now rewrite E].
Qed.

Lemma distinct_NoDup (ks : list K) : NoDup (distinct eqb ks).
Proof.
  induction ks as [|h t IH]; simpl; constructor.
  - intros H. apply filter_In in H. destruct H as [_ H].
    assert (E : eqb h h = true) by now apply eqb_eq.
    rewrite E in H. discriminate.
  - now apply NoDup_filter.
Qed.

Lemma groupby_keys (df : list A) :
  map fst (groupby eqb key df) = distinct eqb (map key df).
Proof.
  unfold groupby. rewrite map_map. simpl. apply map_id.
Qed.

Lemma groupby_In (df : list A) (k : K) (rows : list A) :
  In (k, rows) (groupby eqb key df) <->
  In k (map key df) /\ rows = filter (fun r => eqb k (key r)) df.
Proof.
  unfold groupby. rewrite in_map_iff. split.
  - intros (k' & H & Hin). injection H as -> <-.
    split; [now apply distinct_In | reflexivity].
  - intros [Hin ->]. exists k. split; [reflexivity | now apply distinct_In].
Qed.
End GroupByFacts.

(** ** The good cell barcodes *)

Lemma good_cell_barcodes_In (df : DataFrame) (t : Z) (bc : string) (n : Z) :
  In (bc, n) (good_cell_barcodes_of df t) <->
  In bc (map CellBarcode df) /\ n = records_of bc df /\ (t < n)%Z.
Proof.
  unfold good_cell_barcodes_of, agg_count.
  rewrite filter_In, in_map_iff. simpl. split.
  - intros [([k rows] & H & Hin) Hlt]. simpl in H. injection H as -> <-.
    apply (groupby_In String.eqb CellBarcode String.eqb_eq) in Hin.
    destruct Hin as [Hin ->].
    split; [exact Hin|]. split; [reflexivity | now apply Z.ltb_lt].
  - intros (Hin & -> & Hlt). split; [|now apply Z.ltb_lt].
    exists (bc, filter (fun r => String.eqb bc (CellBarcode r)) df).
    split; [reflexivity|].
    apply (groupby_In String.eqb CellBarcode String.eqb_eq). now split.
Qed.

Lemma good_cell_barcodes_keys (df : DataFrame) (t : Z) (bc : string) :
  In bc (map fst (good_cell_barcodes_of df t)) <->
  In bc (map CellBarcode df) /\ (t < records_of bc df)%Z.
Proof.
  rewrite in_map_iff. split.
  - intros ([bc' n] & H & Hin). simpl in H. subst bc'.
    apply good_cell_barcodes_In in Hin. destruct Hin as (Hin & -> & Hlt).
    now split.
  - intros [Hin Hlt]. exists (bc, records_of bc df).
    split; [reflexivity|]. apply good_cell_barcodes_In. now repeat split.
Qed.

Lemma filter_keeps_keys_distinct {K V : Type} (keep : K * V -> bool)
    (rows : list (K * V)) :
  NoDup (map fst rows) -> NoDup (map fst (filter keep rows)).
Proof.
  intros Hnd. induction rows as [|row rows IH]; simpl; [constructor|].
  inversion Hnd as [|? ? Hnew Hrest]; subst.
  destruct (keep row); simpl; [constructor|]; auto.
  intros Hin. apply Hnew. apply in_map_iff in Hin.
  destruct Hin as (x & Hx & Hin). apply filter_In in Hin.
  apply in_map_iff. exists x. tauto.
Qed.

Lemma good_cell_barcodes_NoDup (df : DataFrame) (t : Z) :
  NoDup (map fst (good_cell_barcodes_of df t)).
Proof.
  unfold good_cell_barcodes_of. apply filter_keeps_keys_distinct.
  unfold agg_count. rewrite map_map. simpl.
  change (map (fun x : string * list Fragment => fst x)
              (groupby String.eqb CellBarcode df))
    with (map fst (groupby String.eqb CellBarcode df)).
  rewrite groupby_keys. apply distinct_NoDup. apply String.eqb_eq.
Qed.

(** C5. The barcode qualifier returns exactly the barcodes of the
    population whose number of records is strictly greater than
    [min_uniq_frag], each once and with that number; the result is a
    function of the barcode column alone (the duplicate counts are not
    read).  For three barcodes with 5, 250 and 300 records of duplicate
    count 1 and the threshold 200 it returns the last two, a set of
    size 2. *)
Theorem good_cell_barcodes_exact (df : DataFrame) (min_uniq_frag : Z) :
  (forall bc,
      In bc (map fst (good_cell_barcodes_of df min_uniq_frag)) <->
      In bc (map CellBarcode df) /\ (min_uniq_frag < records_of bc df)%Z) /\
  NoDup (map fst (good_cell_barcodes_of df min_uniq_frag)) /\
  (forall bc n, In (bc, n) (good_cell_barcodes_of df min_uniq_frag) ->
                n = records_of bc df) /\
  (forall df', map CellBarcode df' = map CellBarcode df ->
               good_cell_barcodes_of df' min_uniq_frag
               = good_cell_barcodes_of df min_uniq_frag) /\
  map fst (good_cell_barcodes_of scenario_population 200)
  = ["barcode2"%string; "barcode3"%string] /\
  List.length (good_cell_barcodes_of scenario_population 200) = 2%nat.
Proof.
  split; [intros bc; apply good_cell_barcodes_keys|].
  split; [apply good_cell_barcodes_NoDup|].
  split; [intros bc n H; now apply good_cell_barcodes_In in H|].
  split; [|split; vm_compute; reflexivity].
  intros df' Hcols.
  unfold good_cell_barcodes_of, agg_count, groupby. f_equal.
  rewrite !map_map, Hcols. apply map_ext. intros k. simpl. f_equal. f_equal.
  clear min_uniq_frag. revert df' Hcols.
  induction df as [|r df IH]; intros [|r' df']; simpl; try discriminate.
  - reflexivity.
  - intros H. injection H as Hr Ht. rewrite Hr.
    destruct (String.eqb k (CellBarcode r)); simpl; now rewrite (IH df' Ht).
Qed.

(** C8. The good-barcode set is antitone in the threshold: with
    [t1 < t2], every barcode that is good for [t2] is good for [t1]. *)
Theorem good_cell_barcodes_antitone (df : DataFrame) (t1 t2 : Z) (bc : string) :
  (t1 < t2)%Z ->
  In bc (map fst (good_cell_barcodes_of df t2)) ->
  In bc (map fst (good_cell_barcodes_of df t1)).
Proof.
  intros Hlt H. apply good_cell_barcodes_keys in H.
  apply good_cell_barcodes_keys. destruct H as [Hin Hgood].
  split; [exact Hin | lia].
Qed.

Lemma good_cell_barcodes_antitone_witness :
  (100 < 200)%Z /\
  In "barcode2"%string (map fst (good_cell_barcodes_of scenario_population 200)) /\
  In "barcode2"%string (map fst (good_cell_barcodes_of scenario_population 100)).
Proof.
  assert (Hlt : (100 < 200)%Z) by reflexivity.
  assert (Hin : In "barcode2"%string
                   (map fst (good_cell_barcodes_of scenario_population 200)))
    by (vm_compute; left; reflexivity).
  split; [exact Hlt|]. split; [exact Hin|].
  exact (good_cell_barcodes_antitone scenario_population 100 200 _ Hlt Hin).
Defined.

(** ** Sampling *)

Lemma take_at_Permutation {A : Type} (i : nat) (l : list A) (a : A)
    (l' : list A) :
  take_at i l = Some (a, l') -> Permutation l (a :: l').
Proof.
  revert i a l'. induction l as [|h t IH]; intros i a l'; simpl; [discriminate|].
  destruct i as [|i].
  - intros H. injection H as <- <-. apply Permutation_refl.
  - destruct (take_at i t) as [[b r]|] eqn:E; [|discriminate].
    intros H. injection H as <- <-.
    apply perm_trans with (h :: b :: r).
    + apply perm_skip. now apply IH with i.
    + apply perm_swap.
Qed.

Lemma take_at_in_range {A : Type} (i : nat) (l : list A) :
  (i < List.length l)%nat -> exists a l', take_at i l = Some (a, l').
Proof.
  revert i. induction l as [|h t IH]; intros i; simpl; [lia|].
  destruct i as [|i]; [eauto|].
  intros Hi. destruct (IH i) as (a & l' & E); [lia|].
  rewrite E. eauto.
Qed.

(** Drawing as many rows as there are gives all of them, in some
    order, whatever the random state. *)
Lemma sample_n_all {A : Type} (l : list A) (g : rng) :
  Permutation (fst (sample_n (List.length l) l g)) l.
Proof.
  remember (List.length l) as n eqn:Hn.
  revert l g Hn. induction n as [|n IH]; intros l g Hn.
  - destruct l; [apply Permutation_refl | discriminate].
  - simpl. rewrite <- Hn.
    assert (Hi : (Nat.modulo (hd O g) (S n) < List.length l)%nat).
    { rewrite <- Hn. apply Nat.mod_upper_bound. discriminate. }
    destruct (take_at_in_range _ _ Hi) as (a & l' & E).
    rewrite E.
    pose proof (take_at_Permutation _ _ _ _ E) as Hp.
    assert (Hl : n = List.length l').
    { apply Permutation_length in Hp. simpl in Hp. lia. }
    specialize (IH l' (tl g) Hl).
    destruct (sample_n n l' (tl g)) as [r g'] eqn:Er. simpl in *.
    apply Permutation_sym. apply perm_trans with (a :: l'); [exact Hp|].
    apply perm_skip. now apply Permutation_sym.
Qed.

Lemma py_int_floor (q : Q) : 0 <= q -> py_int q = Qfloor q.
Proof.
  intros H. unfold py_int. destruct q as [n d]. simpl.
  apply Z.quot_div_nonneg; [|reflexivity].
  unfold Qle in H. simpl in H. lia.
Qed.

(** For a fraction between 0 and 1 the number of rows to draw does not
    exceed the height. *)
Lemma sample_size_bound (frac : Q) (height : nat) :
  0 <= frac -> frac <= 1 ->
  (Z.to_nat (py_int (frac * inject_Z (Z.of_nat height))) <= height)%nat.
Proof.
  intros H0 H1.
  assert (Hh : 0 <= inject_Z (Z.of_nat height)).
  { change 0 with (inject_Z 0). rewrite <- Zle_Qle. lia. }
  assert (Hq : 0 <= frac * inject_Z (Z.of_nat height))
    by now apply Qmult_le_0_compat.
  rewrite (py_int_floor _ Hq).
  assert (Hle : frac * inject_Z (Z.of_nat height) <= inject_Z (Z.of_nat height)).
  { apply Qle_trans with (1 * inject_Z (Z.of_nat height)).
    - now apply Qmult_le_compat_r.
    - rewrite Qmult_1_l. apply Qle_refl. }
  apply Qfloor_resp_le in Hle. rewrite Qfloor_Z in Hle. lia.
Qed.

Lemma sample_size_full (frac : Q) (height : nat) :
  frac == 1 ->
  Z.to_nat (py_int (frac * inject_Z (Z.of_nat height))) = height.
Proof.
  intros H1.
  assert (Hh : 0 <= inject_Z (Z.of_nat height)).
  { change 0 with (inject_Z 0). rewrite <- Zle_Qle. lia. }
  assert (Heq : frac * inject_Z (Z.of_nat height) == inject_Z (Z.of_nat height))
    by (rewrite H1; apply Qmult_1_l).
  assert (Hq : 0 <= frac * inject_Z (Z.of_nat height))
    by (rewrite Heq; exact Hh).
  rewrite (py_int_floor _ Hq), Heq, Qfloor_Z. lia.
Qed.

Lemma sample_total {A : Type} (frac : Q) (df : list A) (g : rng) :
  0 <= frac -> frac <= 1 ->
  sample frac df g
  = Ok (sample_n (Z.to_nat (py_int (frac * inject_Z (Z.of_nat (List.length df)))))
                 df g).
Proof.
  intros H0 H1. unfold sample.
  pose proof (sample_size_bound frac (List.length df) H0 H1) as Hb.
  destruct (Nat.ltb_spec (List.length df)
              (Z.to_nat (py_int (frac * inject_Z (Z.of_nat (List.length df)))))).
  - lia.
  - reflexivity.
Qed.

Lemma sample_full {A : Type} (frac : Q) (df : list A) (g : rng) :
  frac == 1 ->
  exists sampled g',
    sample frac df g = Ok (sampled, g') /\ Permutation sampled df.
Proof.
  intros H1.
  assert (H0 : 0 <= frac) by (rewrite H1; discriminate).
  assert (Hle : frac <= 1) by (rewrite H1; apply Qle_refl).
  rewrite (sample_total frac df g H0 Hle), (sample_size_full _ _ H1).
  pose proof (sample_n_all df g) as Hp.
  destruct (sample_n (List.length df) df g) as [s g']. simpl in Hp.
  now exists s, g'.
Qed.

(** ** The loop over the fractions *)

Lemma sampling_loop_trace (good : list (string * Z)) (nbr : Z)
    (all : DataFrame) (todo : list Q) (b : StatsBucket) (g : rng) :
  Forall (fun f => 0 <= f /\ f <= 1) todo ->
  exists vals g',
    sampling_loop good nbr all todo b g = Ok (write_chunks nbr todo vals b, g') /\
    Forall2 (drawn good all) todo vals.
Proof.
  intros Hok. revert b g.
  induction Hok as [|f todo [H0 H1] _ IH]; intros b g.
  - exists [], g. split; [reflexivity | constructor].
  - simpl. unfold loop_body, sample_for_good_bc.
    rewrite (sample_total f all g H0 H1).
    destruct (sample_n _ all g) as [sampled g1] eqn:Es. simpl.
    destruct (IH (record_chunk (chunk_label f) (left_join good sampled) nbr b) g1)
      as (vals & g' & Hrun & Hvals).
    exists (chunk_stats (left_join good sampled) :: vals), g'.
    split; [exact Hrun|].
    constructor; [|exact Hvals].
    exists g, sampled, g1. split; [|reflexivity].
    rewrite (sample_total f all g H0 H1). now rewrite Es.
Qed.

Lemma fractions_in_range : Forall (fun f => 0 <= f /\ f <= 1) fractions.
Proof.
  assert (H : forallb (fun f => Qle_bool 0 f && Qle_bool f 1) fractions = true)
    by (vm_compute; reflexivity).
  rewrite forallb_forall in H. apply Forall_forall. intros f Hin.
  specialize (H f Hin). apply andb_true_iff in H.
  split; apply Qle_bool_iff; apply H.
Qed.

Lemma Forall2_length_10 {A B : Type} (R : A -> B -> Prop) (l : list A)
    (vals : list B) :
  List.length l = 10%nat -> Forall2 R l vals ->
  exists v1 v2 v3 v4 v5 v6 v7 v8 v9 v10,
    vals = [v1; v2; v3; v4; v5; v6; v7; v8; v9; v10].
Proof.
  intros Hl H. apply Forall2_length in H. rewrite Hl in H.
  do 10 (destruct vals as [|? vals]; [discriminate H|]).
  destruct vals; [|discriminate H].
  repeat eexists.
Qed.

(** [sub_sample_fragments] always returns, and its table is the frame
    of the bucket after ten chunks were written. *)
Lemma sub_sample_fragments_runs (df : DataFrame) (min_uniq_frag : Z) (g : rng) :
  let good := good_cell_barcodes_of df min_uniq_frag in
  let nbr := Z.of_nat (List.length good) in
  exists vals g',
    sub_sample_fragments df min_uniq_frag g
    = Ok (to_frame (write_chunks nbr fractions vals init_bucket), g') /\
    Forall2 (drawn good (explode_by_count df)) fractions vals.
Proof.
  intros good nbr. unfold sub_sample_fragments. fold good. fold nbr.
  destruct (sampling_loop_trace good nbr (explode_by_count df) fractions
                                init_bucket g fractions_in_range)
    as (vals & g' & Hrun & Hvals).
  rewrite Hrun. simpl. now exists vals, g'.
Qed.

(** ** The statistics table *)

(** C4, as the code has it.  For every input population and random
    state the engine returns a table of eleven rows: the row
    ["chunk 0"] the bucket is initialised with, all zero, followed by
    exactly one row per sampling fraction, in fraction order; the
    field [cell_barcode_count] holds the size of the good-barcode set
    in every row of a fraction, and 0 in the row ["chunk 0"]. *)
Theorem stats_table_rows (df : DataFrame) (min_uniq_frag : Z) (g : rng) :
  exists table g',
    sub_sample_fragments df min_uniq_frag g = Ok (table, g') /\
    map fst table = "chunk 0"%string :: map chunk_label fractions /\
    map fst table = chunk_labels /\
    List.length table = S (List.length fractions) /\
    hd_error table
    = Some ("chunk 0"%string,
            {| row_mean_frag_per_bc := Some 0;
               row_median_uniq_frag_per_bc := Some 0;
               row_total_frag_count := Some 0%Z;
               row_cell_barcode_count := Some 0%Z |}) /\
    map (fun r => row_cell_barcode_count (snd r)) (tl table)
    = map (fun _ => Some (Z.of_nat (List.length
                                      (good_cell_barcodes_of df min_uniq_frag))))
          fractions.
Proof.
  destruct (sub_sample_fragments_runs df min_uniq_frag g)
    as (vals & g' & Hrun & Hvals).
  destruct (Forall2_length_10 _ fractions vals eq_refl Hvals)
    as (v1 & v2 & v3 & v4 & v5 & v6 & v7 & v8 & v9 & v10 & ->).
  eexists. exists g'. split; [exact Hrun|].
  generalize (Z.of_nat (List.length (good_cell_barcodes_of df min_uniq_frag))).
  intros nbr. repeat split; vm_compute; reflexivity.
Qed.

(** C4 as stated fails: for the three-barcode population and the
    threshold 200 the table has eleven rows for ten fractions, and its
    first row holds 0 where the good-barcode set has size 2. *)
Lemma stats_table_has_chunk_0 :
  exists table g',
    sub_sample_fragments scenario_population 200 [] = Ok (table, g') /\
    List.length fractions = 10%nat /\
    List.length table = 11%nat /\
    List.length (good_cell_barcodes_of scenario_population 200) = 2%nat /\
    map (fun r => row_cell_barcode_count (snd r)) table
    = Some 0%Z :: repeat (Some 2%Z) 10.
Proof.
  eexists. eexists.
  split; [vm_compute; reflexivity|].
  repeat split; vm_compute; reflexivity.
Qed.

Lemma drawn_without_good (all : DataFrame) (f : Q)
    (v : Z * option Q * option Q) :
  drawn [] all f v -> v = (0%Z, None, None).
Proof. intros (g0 & sampled & g1 & _ & ->). reflexivity. Qed.

Lemma no_good_barcode_table (df : DataFrame) (min_uniq_frag : Z) (g : rng) :
  good_cell_barcodes_of df min_uniq_frag = [] ->
  exists g', sub_sample_fragments df min_uniq_frag g = Ok (degenerate_table, g').
Proof.
  intros Hgood.
  destruct (sub_sample_fragments_runs df min_uniq_frag g)
    as (vals & g' & Hrun & Hvals).
  rewrite Hgood in Hrun, Hvals. simpl in Hrun.
  destruct (Forall2_length_10 _ fractions vals eq_refl Hvals)
    as (v1 & v2 & v3 & v4 & v5 & v6 & v7 & v8 & v9 & v10 & ->).
  exists g'. rewrite Hrun. f_equal. f_equal.
  repeat match goal with
         | H : Forall2 _ _ (_ :: _) |- _ =>
             inversion H as [|? ? ? ? ?Hd ?Ht]; subst; clear H
         end.
  repeat match goal with
         | H : drawn [] _ _ _ |- _ => apply drawn_without_good in H; subst
         end.
  vm_compute. reflexivity.
Qed.

(** C6. For an empty fragment population, and likewise for a population
    none of whose barcodes is good, the engine does not raise: it
    returns the statistics table, in which every total and barcode
    count is zero and every mean and median is zero (row ["chunk 0"])
    or NaN (the rows of the fractions). *)
Theorem degenerate_input_gives_table :
  (forall min_uniq_frag g, exists g',
      sub_sample_fragments [] min_uniq_frag g = Ok (degenerate_table, g')) /\
  (forall df min_uniq_frag g,
      good_cell_barcodes_of df min_uniq_frag = [] ->
      exists g',
        sub_sample_fragments df min_uniq_frag g = Ok (degenerate_table, g')) /\
  Forall (fun r =>
            (row_mean_frag_per_bc (snd r) = Some 0
             \/ row_mean_frag_per_bc (snd r) = None) /\
            (row_median_uniq_frag_per_bc (snd r) = Some 0
             \/ row_median_uniq_frag_per_bc (snd r) = None) /\
            row_total_frag_count (snd r) = Some 0%Z /\
            row_cell_barcode_count (snd r) = Some 0%Z)
         degenerate_table.
Proof.
  split; [|split].
  - intros min_uniq_frag g. now apply no_good_barcode_table.
  - intros df min_uniq_frag g. apply no_good_barcode_table.
  - unfold degenerate_table. constructor.
    + simpl. repeat split; now left.
    + apply Forall_forall. intros r Hin. apply in_map_iff in Hin.
      destruct Hin as (f & <- & _). simpl. repeat split; now right.
Qed.

Lemma degenerate_input_gives_table_witness :
  good_cell_barcodes_of scenario_population 1000 = [] /\
  exists g',
    sub_sample_fragments scenario_population 1000 [7; 2; 9]%nat
    = Ok (degenerate_table, g').
Proof.
  assert (H : good_cell_barcodes_of scenario_population 1000 = [])
    by (vm_compute; reflexivity).
  split; [exact H|].
  exact (proj1 (proj2 degenerate_input_gives_table)
               scenario_population 1000%Z [7; 2; 9]%nat H).
Defined.

(** ** The join with the good barcodes *)

Lemma left_join_length (good : list (string * Z)) (s : DataFrame) :
  List.length (left_join good s)
  = list_sum (map (fun l => Nat.max 1 (List.length (rows_of (fst l) s))) good).
Proof.
  unfold left_join, rows_of.
  induction good as [|l good IH]; [reflexivity|].
  cbn [flat_map map list_sum]. rewrite length_app.
  apply (f_equal2 Nat.add); [|exact IH].
  destruct (filter _ s) as [|r ms]; simpl; [reflexivity|].
  now rewrite length_map.
Qed.

Lemma filter_length_Permutation {A : Type} (f : A -> bool) (s s' : list A) :
  Permutation s s' ->
  List.length (filter f s) = List.length (filter f s').
Proof.
  induction 1 as [|x l l' _ IH|x y l|l l' l'' _ IH1 _ IH2]; simpl.
  - reflexivity.
  - destruct (f x); simpl; now rewrite IH.
  - destruct (f x), (f y); reflexivity.
  - now rewrite IH1.
Qed.

Lemma left_join_length_Permutation (good : list (string * Z))
    (s s' : DataFrame) :
  Permutation s s' ->
  List.length (left_join good s) = List.length (left_join good s').
Proof.
  intros Hp. rewrite !left_join_length. f_equal.
  apply map_ext. intros l. unfold rows_of.
  now rewrite (filter_length_Permutation _ _ _ Hp).
Qed.

Lemma rows_of_repeat (bc : string) (r : Fragment) (c : nat) :
  List.length (rows_of bc (repeat r c))
  = if String.eqb bc (CellBarcode r) then c else O.
Proof.
  unfold rows_of. induction c as [|c IH]; simpl.
  - now destruct (String.eqb bc (CellBarcode r)).
  - destruct (String.eqb bc (CellBarcode r)); simpl; now rewrite IH.
Qed.

Lemma in_good_false (good : list (string * Z)) (r : Fragment) :
  ~ In (CellBarcode r) (map fst good) -> in_good good r = false.
Proof.
  intros Hnin. unfold in_good.
  destruct (existsb _ good) eqn:E; [|reflexivity].
  apply existsb_exists in E. destruct E as (l & Hin & Hl).
  apply String.eqb_eq in Hl. exfalso. apply Hnin.
  rewrite <- Hl. now apply in_map.
Qed.

Lemma reads_of_record (good : list (string * Z)) (r : Fragment) (c : nat) :
  NoDup (map fst good) ->
  list_sum (map (fun l => List.length (rows_of (fst l) (repeat r c))) good)
  = if in_good good r then c else O.
Proof.
  induction good as [|l good IH]; simpl; intros Hnd; [reflexivity|].
  inversion Hnd as [|? ? Hnin Hnd']; subst.
  rewrite rows_of_repeat, (IH Hnd').
  destruct (String.eqb (fst l) (CellBarcode r)) eqn:E; simpl; [|reflexivity].
  apply String.eqb_eq in E. rewrite E in Hnin.
  rewrite (in_good_false good r Hnin). lia.
Qed.

Lemma list_sum_map_add {A : Type} (f h : A -> nat) (l : list A) :
  list_sum (map (fun a => (f a + h a)%nat) l)
  = (list_sum (map f l) + list_sum (map h l))%nat.
Proof. induction l as [|a l IH]; simpl; [reflexivity | lia]. Qed.

Lemma reads_of_good (good : list (string * Z)) (df : DataFrame) :
  NoDup (map fst good) ->
  list_sum (map (fun l => List.length (rows_of (fst l) (explode_by_count df)))
                good)
  = list_sum (map (fun r => Z.to_nat (FragmentCount r))
                  (filter (in_good good) df)).
Proof.
  intros Hnd. induction df as [|r df IH]; simpl.
  - induction good as [|l good IHg]; simpl; [reflexivity|].
    inversion Hnd; subst. now rewrite IHg.
  - rewrite (map_ext _ (fun l =>
               (List.length (rows_of (fst l) (repeat r (Z.to_nat (FragmentCount r))))
                + List.length (rows_of (fst l) (explode_by_count df)))%nat)).
    + rewrite list_sum_map_add, IH, (reads_of_record good r _ Hnd).
      destruct (in_good good r); reflexivity.
    + intros l. unfold rows_of, explode_by_count.
      now rewrite filter_app, length_app.
Qed.

Lemma good_barcode_has_read (df : DataFrame) (t : Z) (l : string * Z) :
  Forall (fun r => (1 <= FragmentCount r)%Z) df ->
  In l (good_cell_barcodes_of df t) ->
  (1 <= List.length (rows_of (fst l) (explode_by_count df)))%nat.
Proof.
  intros Hvalid Hin. destruct l as [bc n].
  apply good_cell_barcodes_In in Hin. destruct Hin as (Hbc & _ & _).
  apply in_map_iff in Hbc. destruct Hbc as (r & Hr & Hin). simpl.
  assert (Hrow : In r (rows_of bc (explode_by_count df))).
  { apply filter_In. split.
    - apply in_flat_map. exists r. split; [exact Hin|].
      rewrite Forall_forall in Hvalid. specialize (Hvalid r Hin).
      destruct (Z.to_nat (FragmentCount r)) as [|c] eqn:E; [lia | now left].
    - rewrite Hr. apply String.eqb_refl. }
  destruct (rows_of bc (explode_by_count df)); [destruct Hrow | simpl; lia].
Qed.

(** The height of the join of the good barcodes with all reads. *)
Lemma full_join_height (df : DataFrame) (t : Z) :
  Forall (fun r => (1 <= FragmentCount r)%Z) df ->
  Z.of_nat (List.length (left_join (good_cell_barcodes_of df t)
                                   (explode_by_count df)))
  = sumZ (map FragmentCount
              (filter (in_good (good_cell_barcodes_of df t)) df)).
Proof.
  intros Hvalid. rewrite left_join_length.
  rewrite (map_ext_in _ (fun l => List.length (rows_of (fst l) (explode_by_count df)))).
  - rewrite (reads_of_good _ _ (good_cell_barcodes_NoDup df t)).
    generalize (good_cell_barcodes_of df t). intros good.
    induction Hvalid as [|r df Hr _ IH]; simpl; [reflexivity|].
    destruct (in_good good r); simpl; [|exact IH].
    rewrite Nat2Z.inj_add, IH. lia.
  - intros l Hin. pose proof (good_barcode_has_read df t l Hvalid Hin). lia.
Qed.

(** ** The full fraction *)

Lemma Forall2_nth_error {A B : Type} (R : A -> B -> Prop) (l : list A)
    (l' : list B) (i : nat) (a : A) (b : B) :
  Forall2 R l l' -> nth_error l i = Some a -> nth_error l' i = Some b -> R a b.
Proof.
  intros H. revert i. induction H as [|x y l l' Hxy _ IH]; intros i.
  - destruct i; discriminate.
  - destruct i as [|i]; simpl.
    + intros Ha Hb. injection Ha as <-. injection Hb as <-. exact Hxy.
    + apply IH.
Qed.

Lemma last_fraction_is_one :
  exists f, nth_error fractions 9 = Some f /\ f == 1 /\
            chunk_label f = "chunk 10"%string.
Proof.
  eexists. split; [vm_compute; reflexivity|]. split; reflexivity.
Qed.

(** C3. At the sampling fraction 1.0, whatever the random state, the
    sample is the whole expanded population in some order, and the
    reported [total_frag_count] (row ["chunk 10"]) is the sum of the
    duplicate counts of all records whose barcode is good, for a
    population whose duplicate counts are at least 1. *)
Theorem full_fraction_total_frag_count (df : DataFrame) (min_uniq_frag : Z)
    (g : rng) :
  Forall (fun r => (1 <= FragmentCount r)%Z) df ->
  let good := good_cell_barcodes_of df min_uniq_frag in
  exists f table g' row sampled,
    nth_error fractions 9 = Some f /\ f == 1 /\
    sub_sample_fragments df min_uniq_frag g = Ok (table, g') /\
    nth_error table 10 = Some ("chunk 10"%string, row) /\
    Permutation sampled (explode_by_count df) /\
    row_total_frag_count row
    = Some (Z.of_nat (List.length (left_join good sampled))) /\
    row_total_frag_count row
    = Some (sumZ (map FragmentCount (filter (in_good good) df))).
Proof.
  intros Hvalid good.
  destruct (sub_sample_fragments_runs df min_uniq_frag g)
    as (vals & g' & Hrun & Hvals).
  fold good in Hrun, Hvals.
  destruct (Forall2_length_10 _ fractions vals eq_refl Hvals)
    as (v1 & v2 & v3 & v4 & v5 & v6 & v7 & v8 & v9 & v10 & ->).
  destruct last_fraction_is_one as (f & Hf & Hone & _).
  assert (Hd : drawn good (explode_by_count df) f v10)
    by exact (Forall2_nth_error _ _ _ 9 f v10 Hvals Hf eq_refl).
  destruct Hd as (g0 & sampled & g1 & Hs & Hv).
  destruct (sample_full f (explode_by_count df) g0 Hone)
    as (sampled' & g1' & Hs' & Hperm).
  assert (sampled' = sampled) by congruence. subst sampled'.
  destruct v10 as [[t10 m10] d10].
  unfold chunk_stats in Hv. injection Hv as Ht _ _.
  exists f, (to_frame (write_chunks (Z.of_nat (List.length good)) fractions
                         [v1; v2; v3; v4; v5; v6; v7; v8; v9; (t10, m10, d10)]
                         init_bucket)), g',
    {| row_mean_frag_per_bc := m10;
       row_median_uniq_frag_per_bc := d10;
       row_total_frag_count := Some t10;
       row_cell_barcode_count := Some (Z.of_nat (List.length good)) |},
    sampled.
  split; [exact Hf|]. split; [exact Hone|]. split; [exact Hrun|].
  split; [generalize (Z.of_nat (List.length good)); intros nbr;
          vm_compute; reflexivity|].
  split; [exact Hperm|]. simpl. rewrite Ht. split; [reflexivity|].
  f_equal. rewrite (left_join_length_Permutation good _ _ Hperm).
  now apply full_join_height.
Qed.

Lemma full_fraction_total_frag_count_witness :
  Forall (fun r => (1 <= FragmentCount r)%Z) (records_for "cell" 3) /\
  exists table g' row,
    sub_sample_fragments (records_for "cell" 3) 2 [5; 1; 8]%nat
    = Ok (table, g') /\
    nth_error table 10 = Some ("chunk 10"%string, row) /\
    row_total_frag_count row
    = Some (sumZ (map FragmentCount
                      (filter (in_good (good_cell_barcodes_of
                                          (records_for "cell" 3) 2))
                              (records_for "cell" 3)))).
Proof.
  assert (Hvalid : Forall (fun r => (1 <= FragmentCount r)%Z)
                          (records_for "cell" 3)).
  { repeat constructor; discriminate. }
  split; [exact Hvalid|].
  destruct (full_fraction_total_frag_count (records_for "cell" 3) 2
                                           [5; 1; 8]%nat Hvalid)
    as (f & table & g' & row & sampled & _ & _ & Hrun & Hrow & _ & _ & Htotal).
  exists table, g', row. split; [exact Hrun|]. split; [exact Hrow | exact Htotal].
Defined.

(** ** The restriction to the good barcodes *)

Lemma left_join_In (good : list (string * Z)) (sampled : DataFrame)
    (l : string * Z) (o : option Fragment) :
  In (l, o) (left_join good sampled) <->
  In l good /\
  match o with
  | Some r => In r sampled /\ CellBarcode r = fst l
  | None => forall r, In r sampled -> CellBarcode r <> fst l
  end.
Proof.
  unfold left_join. rewrite in_flat_map. split.
  - intros (l' & Hl' & Hin).
    destruct (filter (fun r => String.eqb (fst l') (CellBarcode r)) sampled)
      as [|m ms] eqn:E.
    + destruct Hin as [H|[]]. injection H as -> <-. split; [exact Hl'|].
      intros r Hr Hbc.
      assert (Hf : In r (filter (fun r => String.eqb (fst l) (CellBarcode r))
                                sampled)).
      { apply filter_In. split; [exact Hr|]. rewrite Hbc. apply String.eqb_refl. }
      rewrite E in Hf. destruct Hf.
    + apply in_map_iff in Hin. destruct Hin as (r & H & Hr).
      injection H as -> <-. split; [exact Hl'|].
      rewrite <- E in Hr. apply filter_In in Hr. destruct Hr as [Hr Hbc].
      split; [exact Hr|]. apply String.eqb_eq in Hbc. now symmetry.
  - intros [Hl Ho]. exists l. split; [exact Hl|].
    destruct (filter (fun r => String.eqb (fst l) (CellBarcode r)) sampled)
      as [|m ms] eqn:E.
    + destruct o as [r|]; [|now left].
      destruct Ho as [Hr Hbc].
      assert (Hf : In r (filter (fun r => String.eqb (fst l) (CellBarcode r))
                                sampled)).
      { apply filter_In. split; [exact Hr|]. rewrite Hbc. apply String.eqb_refl. }
      rewrite E in Hf. destruct Hf.
    + destruct o as [r|].
      * destruct Ho as [Hr Hbc]. apply in_map_iff. exists r.
        split; [reflexivity|]. rewrite <- E. apply filter_In.
        split; [exact Hr|]. rewrite Hbc. apply String.eqb_refl.
      * exfalso. apply (Ho m).
        -- assert (Hm : In m (m :: ms)) by now left.
           rewrite <- E in Hm. apply filter_In in Hm. apply Hm.
        -- assert (Hm : In m (m :: ms)) by now left.
           rewrite <- E in Hm. apply filter_In in Hm. destruct Hm as [_ Hm].
           apply String.eqb_eq in Hm. now symmetry.
Qed.

Lemma sample_tenth_of_three (g0 : rng) :
  sample (hd 0 fractions) (explode_by_count (records_for "cell" 3)) g0
  = Ok ([], g0).
Proof. reflexivity. Qed.

(** C2, on the code.  The join of line 159 is a left join from the good
    barcodes: a row of the restricted table belongs to a good barcode,
    and either carries a sampled record of that barcode or, when no
    record of that barcode was sampled, is a row of nulls.  So the
    sampled records of other barcodes are discarded, but the table is
    not an inner join: for one barcode with three records and the
    threshold 2, nothing is sampled at the fraction 0.1, whatever the
    random state, and the restricted table holds one row, reported as
    a [total_frag_count] of 1. *)
Theorem left_join_pads_unsampled_good_barcodes :
  (forall good sampled l o,
      In (l, o) (left_join good sampled) <->
      In l good /\
      match o with
      | Some r => In r sampled /\ CellBarcode r = fst l
      | None => forall r, In r sampled -> CellBarcode r <> fst l
      end) /\
  (forall g : rng,
      let df := records_for "cell" 3 in
      let good := good_cell_barcodes_of df 2 in
      let fraction := hd 0 fractions in
      fraction == 1 # 10 /\
      good = [("cell"%string, 3%Z)] /\
      sample fraction (explode_by_count df) g = Ok ([], g) /\
      sample_for_good_bc good (explode_by_count df) fraction g
      = Ok ([(("cell"%string, 3%Z), None)], g) /\
      exists table g' row,
        sub_sample_fragments df 2 g = Ok (table, g') /\
        nth_error table 1 = Some ("chunk 1"%string, row) /\
        row_total_frag_count row = Some 1%Z).
Proof.
  split; [exact left_join_In|].
  intros g df good fraction.
  split; [reflexivity|].
  split; [reflexivity|]. split; [reflexivity|]. split; [reflexivity|].
  destruct (sub_sample_fragments_runs df 2 g) as (vals & g' & Hrun & Hvals).
  destruct (Forall2_length_10 _ fractions vals eq_refl Hvals)
    as (v1 & v2 & v3 & v4 & v5 & v6 & v7 & v8 & v9 & v10 & ->).
  assert (Hf : nth_error fractions 0 = Some fraction) by reflexivity.
  assert (Hd : drawn (good_cell_barcodes_of df 2) (explode_by_count df)
                     fraction v1)
    by exact (Forall2_nth_error _ _ _ 0 fraction v1 Hvals Hf eq_refl).
  destruct Hd as (g0 & sampled & g1 & Hs & Hv).
  unfold df, fraction in Hs. rewrite sample_tenth_of_three in Hs.
  injection Hs as <- <-.
  assert (Hv1 : v1 = (1%Z, Some 1, Some 1)) by (rewrite Hv; reflexivity).
  eexists. exists g'. eexists.
  split; [exact Hrun|].
  rewrite Hv1. split; vm_compute; reflexivity.
Qed.

(** ** The header of the fragments file *)

Lemma py_split_nonempty (sep : ascii) (s : string) : py_split sep s <> [].
Proof.
  induction s as [|c s IH]; simpl; [discriminate|].
  destruct (Ascii.eqb c sep); [discriminate|].
  destruct (py_split sep s); [contradiction | discriminate].
Qed.

Lemma py_split_length (s : string) :
  List.length (py_split tab s) = S (count_tabs s).
Proof.
  induction s as [|c s IH]; simpl; [reflexivity|].
  destruct (Ascii.eqb c tab); simpl; [now rewrite IH|].
  destruct (py_split tab s) as [|f fs] eqn:E; [discriminate IH | exact IH].
Qed.

Lemma scan_header_skipped (pre rest : list string) (k : nat) :
  forallb skipped_line pre = true ->
  scan_header (pre ++ rest) k = scan_header rest (List.length pre + k).
Proof.
  revert k. induction pre as [|l pre IH]; intros k; simpl; [reflexivity|].
  intros H. apply andb_true_iff in H. destruct H as [Hl Hpre].
  rewrite Hl, (IH (S k) Hpre). f_equal. lia.
Qed.

(** X1. A file without a data line (an empty file, or only blank and
    comment lines) is refused with [ValueError] before the table is
    parsed. *)
Theorem file_without_data_line_refused
    (read_csv : list string -> nat -> result DataFrame) (lines : list string) :
  forallb skipped_line lines = true ->
  read_bc_and_counts_from_fragments_file read_csv lines = Raise ValueError.
Proof.
  intros H. unfold read_bc_and_counts_from_fragments_file.
  rewrite <- (app_nil_r lines), (scan_header_skipped lines [] 0 H).
  reflexivity.
Qed.

Lemma file_without_data_line_refused_witness :
  forallb skipped_line ["# fragments"; "   "; ""]%string = true /\
  read_bc_and_counts_from_fragments_file (fun _ _ => Ok [])
    ["# fragments"; "   "; ""]%string = Raise ValueError.
Proof.
  assert (H : forallb skipped_line ["# fragments"; "   "; ""]%string = true)
    by reflexivity.
  split; [exact H|].
  exact (file_without_data_line_refused (fun _ _ => Ok []) _ H).
Defined.

(** X2. The first line that is neither blank nor a comment decides
    alone: the file is refused with [ValueError] when that line, once
    stripped, has fewer than four tabs (fewer than five columns), and is
    otherwise handed to the parser with [skip_rows] equal to the number
    of lines before it; the lines after it are not looked at. *)
Theorem first_data_line_decides
    (read_csv : list string -> nat -> result DataFrame)
    (pre : list string) (line : string) (rest : list string) :
  forallb skipped_line pre = true ->
  skipped_line line = false ->
  read_bc_and_counts_from_fragments_file read_csv (pre ++ line :: rest)
  = if Nat.ltb (count_tabs (py_strip line)) 4 then Raise ValueError
    else read_csv (pre ++ line :: rest) (List.length pre).
Proof.
  intros Hpre Hline. unfold read_bc_and_counts_from_fragments_file.
  rewrite (scan_header_skipped pre (line :: rest) 0 Hpre). simpl.
  rewrite Hline, py_split_length, Nat.add_0_r.
  destruct (Nat.ltb_spec (count_tabs (py_strip line)) 4) as [Hlt|Hge].
  - destruct (Nat.ltb_spec (S (count_tabs (py_strip line))) 5); [reflexivity | lia].
  - destruct (Nat.ltb_spec (S (count_tabs (py_strip line))) 5); [lia | reflexivity].
Qed.

Lemma first_data_line_decides_witness :
  read_bc_and_counts_from_fragments_file (fun _ k => if Nat.eqb k 1 then Ok [] else Raise TypeError)
    ["# fragments"; "chr1	10	60	cellA	2"; "chr1	70"]%string
  = Ok [].
Proof.
  assert (Hpre : forallb skipped_line ["# fragments"%string] = true)
    by reflexivity.
  assert (Hline : skipped_line "chr1	10	60	cellA	2" = false) by reflexivity.
  exact (first_data_line_decides
           (fun _ k => if Nat.eqb k 1 then Ok [] else Raise TypeError)
           ["# fragments"%string] "chr1	10	60	cellA	2"
           ["chr1	70"%string] Hpre Hline).
Defined.

Lemma all_space_lstrip (w : string) : all_space w = true -> lstrip w = EmptyString.
Proof.
  induction w as [|c w IH]; simpl; [reflexivity|].
  intros H. apply andb_true_iff in H. destruct H as [Hc Hw].
  rewrite Hc. now apply IH.
Qed.

Lemma all_space_rstrip (w : string) : all_space w = true -> rstrip w = EmptyString.
Proof.
  induction w as [|c w IH]; simpl; [reflexivity|].
  intros H. apply andb_true_iff in H. destruct H as [Hc Hw].
  now rewrite (IH Hw), Hc.
Qed.

Lemma rstrip_app_space (s w : string) :
  all_space w = true -> rstrip (s ++ w) = rstrip s.
Proof.
  intros Hw. induction s as [|c s IH]; simpl.
  - now apply all_space_rstrip.
  - now rewrite IH.
Qed.

Lemma lstrip_space_app (w s : string) :
  all_space w = true -> lstrip (w ++ s) = lstrip s.
Proof.
  induction w as [|c w IH]; simpl; [reflexivity|].
  intros H. apply andb_true_iff in H. destruct H as [Hc Hw].
  rewrite Hc. now apply IH.
Qed.

Lemma py_strip_app_space (s w : string) :
  all_space w = true -> py_strip (s ++ w) = py_strip s.
Proof.
  intros Hw. unfold py_strip. induction s as [|c s IH]; simpl.
  - now rewrite (all_space_lstrip w Hw).
  - destruct (is_space c); [exact IH|].
    change (String c (s ++ w)) with (String c s ++ w)%string.
    now apply rstrip_app_space.
Qed.

(** X3. Whitespace around a line is dropped before its columns are
    counted: a line and the same line between runs of whitespace (tabs
    included) are skipped or counted alike, so empty columns at either
    end of the first data line do not count toward the five. *)
Theorem surrounding_whitespace_not_counted (before line after : string)
    (rest : list string) (skip_rows : nat) :
  all_space before = true -> all_space after = true ->
  py_strip (before ++ line ++ after) = py_strip line /\
  scan_header ((before ++ line ++ after)%string :: rest) skip_rows
  = scan_header (line :: rest) skip_rows.
Proof.
  intros Hb Ha.
  assert (Hs : py_strip (before ++ line ++ after) = py_strip line).
  { unfold py_strip. rewrite (lstrip_space_app before _ Hb).
    exact (py_strip_app_space line after Ha). }
  split; [exact Hs|].
  simpl. unfold skipped_line. now rewrite Hs.
Qed.

Lemma surrounding_whitespace_not_counted_witness :
  all_space " " = true /\ all_space "	" = true /\
  scan_header [" chr1	10	60	cellA	"%string] 0 = (0%nat, 4%nat).
Proof.
  assert (Hb : all_space " " = true) by reflexivity.
  assert (Ha : all_space "	" = true) by reflexivity.
  split; [exact Hb|]. split; [exact Ha|].
  exact (eq_trans
           (proj2 (surrounding_whitespace_not_counted
                     " " "chr1	10	60	cellA" "	" [] 0 Hb Ha))
           eq_refl).
Defined.

(** ** The shape of the model *)

Lemma mm_at_times (Vmax Km x : Q) :
  0 < Km + x -> mm_at Vmax Km x * (Km + x) == Vmax * x.
Proof.
  intros H. unfold mm_at. field. intros E. rewrite E in H.
  apply (Qlt_irrefl _ H).
Qed.



Lemma mm_at_monotone (Vmax Km x x' : Q) :
  0 < Vmax -> 0 < Km -> 0 <= x -> x <= x' ->
  mm_at Vmax Km x <= mm_at Vmax Km x'.
Proof.
  intros HV HK Hx Hxx'.
  assert (Hc : 0 < Km + x) by lra.
  assert (Hc' : 0 < Km + x') by lra.
  apply (Qmult_le_r _ _ (Km + x) Hc).
  apply (Qmult_le_r _ _ (Km + x') Hc').
  rewrite (mm_at_times Vmax Km x Hc).
  assert (E : mm_at Vmax Km x' * (Km + x) * (Km + x')
              == (mm_at Vmax Km x' * (Km + x')) * (Km + x)) by ring.
  rewrite E, (mm_at_times Vmax Km x' Hc').
  assert (Hd : 0 <= Vmax * Km * (x' - x)).
  { apply Qmult_le_0_compat; [|lra].
    apply Qlt_le_weak. apply Qmult_lt_0_compat; assumption. }
  assert (E2 : Vmax * x' * (Km + x) - Vmax * x * (Km + x')
               == Vmax * Km * (x' - x)) by ring.
  lra.
Qed.




(** ** Failures and success of [fit_MM] *)

(** X5. When the solver's answer has a parameter that is not positive,
    [MM] returns the sentinel, a plain float, and [fit_MM] raises
    [TypeError] at [max(y_fit)], whatever the data (observed depths
    present). *)
Theorem fit_MM_degenerate_fit_raises_TypeError (Vmax Km : Q)
    (x_data y_data percentages : list Q) :
  x_data <> [] -> Vmax <= 0 \/ Km <= 0 ->
  fit_MM (Vmax, Km) x_data y_data percentages = Raise TypeError.
Proof.
  intros Hx Hbad. unfold fit_MM, fitted_curve, extrapolation_grid.
  destruct (seq_max_nonempty x_data Hx) as (mx & Hmx). rewrite Hmx. simpl.
  now rewrite (MM_sentinel Vmax Km _ Hbad).
Qed.

Lemma fit_MM_degenerate_fit_raises_TypeError_witness :
  fit_MM (0, 3) [1; 2] [0; 0] [3 # 10] = Raise TypeError.
Proof.
  assert (Hx : [1; 2] <> ([] : list Q)) by discriminate.
  assert (Hbad : 0 <= 0 \/ 3 <= 0) by (left; discriminate).
  exact (fit_MM_degenerate_fit_raises_TypeError 0 3 [1; 2] [0; 0] [3 # 10]
           Hx Hbad).
Defined.

Lemma mark_at_error (xs ys : list Q) (target : Q) (e : py_error) :
  List.length xs = List.length ys ->
  mark_at xs ys target = Raise e ->
  e = IndexError /\ Forall (fun y => y < target) ys.
Proof.
  intros Hlen H. unfold mark_at in H.
  destruct (first_of (np_where_ge ys target)) as [i|e'] eqn:E; simpl in H.
  - exfalso. pose proof (np_where_first _ _ _ E) as [(y & Hy & _) _].
    assert (Hi : (i < List.length xs)%nat)
      by (rewrite Hlen; apply nth_error_Some; congruence).
    unfold item in H. rewrite Hy in H.
    destruct (nth_error xs i) eqn:Ex; [discriminate H|].
    apply nth_error_None in Ex. lia.
  - injection H as <-. exact (where_ge_from_none _ _ _ _ E).
Qed.


(** ** The markers *)

Lemma fit_MM_figure (best_fit_ab : Q * Q) (x_data y_data percentages : list Q)
    (fig : Figure) :
  fit_MM best_fit_ab x_data y_data percentages = Ok fig ->
  exists xs ys observed,
    fitted_curve best_fit_ab x_data = Ok (xs, ys) /\
    seq_max y_data = Ok observed /\
    mark_at xs ys observed = Ok (fig_current fig) /\
    last_item xs = Ok (fig_text_x fig) /\
    fig_achieved fig = 100 * observed / fst best_fit_ab /\
    fig_curve fig = (xs, MM (NdArray xs) (fst best_fit_ab) (snd best_fit_ab)).
Proof.
  unfold fit_MM.
  destruct (fitted_curve best_fit_ab x_data) as [[xs ys]|e] eqn:Ec; simpl;
    [|discriminate].
  destruct (seq_max y_data) as [observed|e] eqn:Eo; simpl; [|discriminate].
  destruct (mark_at xs ys observed) as [[x_coef y_coef]|e] eqn:Em; simpl;
    [|discriminate].
  destruct (last_item xs) as [anchor|e] eqn:Ea; simpl; [|discriminate].
  destruct (mark_percentages (fst best_fit_ab) xs ys percentages)
    as [marks|e]; simpl; [|discriminate].
  intros H. injection H as <-. simpl.
  exists xs, ys, observed. repeat split; assumption.
Qed.

Lemma curve_value_bound (Vmax Km : Q) (x_data xs ys : list Q)
    (target x y : Q) :
  fitted_curve (Vmax, Km) x_data = Ok (xs, ys) ->
  mark_at xs ys target = Ok (x, y) ->
  target <= y /\ y <= Vmax * (95 # 100).
Proof.
  intros Hc Hm.
  destruct (mark_at_ok _ _ _ _ _ Hm) as (i & [(y' & Hy' & Hv) _] & _ & Hy).
  assert (y' = y) by congruence. subst y'.
  split; [exact Hv|].
  pose proof (fitted_curve_below _ _ _ _ _ Hc) as Hall.
  rewrite Forall_forall in Hall. apply Hall. now apply nth_error_In with i.
Qed.

(** X8. When [fit_MM] returns, the marker of the current saturation is
    the first point of the extrapolation grid at which the model is at
    least the greatest observed yield, with the value of the model
    there; the share of [Vmax] written beside it is
    [100 * max(y_data) / Vmax], and it is never above 95: a table whose
    greatest observed yield is above [0.95 * Vmax] gets no figure. *)
Theorem fit_MM_current_saturation (Vmax Km : Q)
    (x_data y_data percentages : list Q) (fig : Figure) :
  fit_MM (Vmax, Km) x_data y_data percentages = Ok fig ->
  exists grid observed,
    extrapolation_grid x_data = Ok grid /\
    seq_max y_data = Ok observed /\
    snd (fig_current fig) = mm_at Vmax Km (fst (fig_current fig)) /\
    first_reaching grid (mm_at Vmax Km) observed (fst (fig_current fig)) /\
    fig_achieved fig = 100 * observed / Vmax /\
    observed <= Vmax * (95 # 100) /\
    fig_achieved fig <= 95.
Proof.
  intros H.
  destruct (fit_MM_figure _ _ _ _ _ H)
    as (xs & ys & observed & Hc & Ho & Hm & _ & Ha & _).
  simpl in Ha.
  destruct (fitted_curve_positive _ _ _ _ _ Hc) as (HV & _ & grid & Hg).
  destruct (fig_current fig) as [cx cy] eqn:Ecur.
  destruct (curve_mark_on_grid _ _ _ _ _ _ _ _ _ Hg Hc Hm) as [Hy Hfirst].
  destruct (curve_value_bound _ _ _ _ _ _ _ _ Hc Hm) as [Hlo Hhi].
  assert (Hobs : observed <= Vmax * (95 # 100)) by lra.
  exists grid, observed. simpl.
  repeat split; try assumption.
  rewrite Ha. apply Qle_shift_div_r; [exact HV|]. lra.
Qed.

Lemma fit_MM_current_saturation_witness :
  exists fig,
    fit_MM (20, 1) [5 # 100; 1] [1; 18] [3 # 10] = Ok fig /\
    fig_achieved fig <= 95.
Proof.
  destruct (fit_MM (20, 1) [5 # 100; 1] [1; 18] [3 # 10]) as [fig|e] eqn:E.
  - exists fig. split; [reflexivity|].
    destruct (fit_MM_current_saturation 20 1 _ _ _ fig E)
      as (grid & observed & _ & _ & _ & _ & _ & _ & Hle).
    exact Hle.
  - vm_compute in E. discriminate E.
Defined.

Lemma first_at_monotone (a : list Q) (t1 t2 : Q) (i1 i2 : nat) :
  t1 <= t2 -> first_at a t1 i1 -> first_at a t2 i2 -> (i1 <= i2)%nat.
Proof.
  intros Ht [_ Hb1] [(y & Hy & Hv) _].
  destruct (Nat.le_gt_cases i1 i2) as [H|H]; [exact H|].
  exfalso. pose proof (Hb1 i2 y H Hy). lra.
Qed.

(** X9. When [fit_MM] returns, every marker of a percentage [p] has a
    yield between its target [Vmax * p] and [0.95 * Vmax], so [p] is at
    most 0.95; and, the observed depths not being negative, a greater
    percentage never gets a smaller depth or yield. *)
Theorem fit_MM_markers_ordered (Vmax Km : Q)
    (x_data y_data percentages : list Q) (fig : Figure) :
  fit_MM (Vmax, Km) x_data y_data percentages = Ok fig ->
  (forall p x y, In (p, x, y) (fig_marks fig) ->
     Vmax * p <= y /\ y <= Vmax * (95 # 100) /\ p <= 95 # 100) /\
  (Forall (fun d => 0 <= d) x_data ->
   forall p1 x1 y1 p2 x2 y2,
     In (p1, x1, y1) (fig_marks fig) -> In (p2, x2, y2) (fig_marks fig) ->
     p1 <= p2 -> x1 <= x2 /\ y1 <= y2).
Proof.
  intros H.
  destruct (fit_MM_marks _ _ _ _ _ _ H) as (xs & ys & top & Hc & Htop & Hm).
  destruct (fitted_curve_positive _ _ _ _ _ Hc) as (HV & HK & grid & Hg).
  split.
  - intros p x y Hin. destruct (Hm p x y Hin) as [_ Hmark].
    destruct (curve_value_bound _ _ _ _ _ _ _ _ Hc Hmark) as [Hlo Hhi].
    split; [exact Hlo|]. split; [exact Hhi|].
    apply (Qmult_le_l _ _ Vmax HV). lra.
  - intros Hpos p1 x1 y1 p2 x2 y2 H1 H2 Hp.
    destruct (Hm p1 x1 y1 H1) as [_ Hm1]. destruct (Hm p2 x2 y2 H2) as [_ Hm2].
    destruct (mark_at_ok _ _ _ _ _ Hm1) as (i1 & Hf1 & Hx1 & Hy1).
    destruct (mark_at_ok _ _ _ _ _ Hm2) as (i2 & Hf2 & Hx2 & Hy2).
    assert (Ht : Vmax * p1 <= Vmax * p2) by now apply Qmult_le_l.
    pose proof (first_at_monotone ys _ _ _ _ Ht Hf1 Hf2) as Hi.
    destruct (fitted_curve_prefix _ _ _ _ _ Hc) as (grid' & n & Hg' & Hxs & Hys).
    assert (grid' = grid) by congruence. subst grid'.
    assert (Hgrid : forall i x, nth_error xs i = Some x -> nth_error grid i = Some x).
    { intros i x Hx. rewrite Hxs, nth_error_firstn in Hx.
      destruct (Nat.ltb_spec i n); [exact Hx | discriminate Hx]. }
    assert (Hx12 : x1 <= x2)
      by exact (extrapolation_grid_ascends _ _ _ _ _ _ Hpos Hg Hi
                  (Hgrid _ _ Hx1) (Hgrid _ _ Hx2)).
    split; [exact Hx12|].
    assert (Hx0 : 0 <= x1).
    { destruct (nth_error grid 0) as [x0|] eqn:E0.
      - assert (Hz : x0 == 0).
        { unfold extrapolation_grid in Hg.
          destruct (seq_max x_data) as [mx|]; simpl in Hg; [|discriminate].
          injection Hg as <-. apply np_linspace_nth in E0. rewrite E0.
          simpl. ring. }
        rewrite <- Hz.
        exact (extrapolation_grid_ascends _ _ 0 i1 _ _ Hpos Hg (Nat.le_0_l _)
                 E0 (Hgrid _ _ Hx1)).
      - apply nth_error_None in E0.
        rewrite (extrapolation_grid_length _ _ Hg) in E0. lia. }
    rewrite Hys, nth_error_map, Hx1 in Hy1. rewrite Hys, nth_error_map, Hx2 in Hy2.
    simpl in Hy1, Hy2. injection Hy1 as <-. injection Hy2 as <-.
    now apply mm_at_monotone.
Qed.

Lemma fit_MM_markers_ordered_witness :
  exists fig,
    fit_MM (20, 1) [5 # 100; 1] [1; 18] [3 # 10; 6 # 10] = Ok fig /\
    forall p x y, In (p, x, y) (fig_marks fig) -> p <= 95 # 100.
Proof.
  destruct (fit_MM (20, 1) [5 # 100; 1] [1; 18] [3 # 10; 6 # 10])
    as [fig|e] eqn:E.
  - exists fig. split; [reflexivity|].
    intros p x y Hin.
    exact (proj2 (proj2 (proj1 (fit_MM_markers_ordered 20 1 _ _ _ fig E)
                               p x y Hin))).
  - vm_compute in E. discriminate E.
Defined.

(** ** When the curve is cut *)







(** ** The expanded table and its samples *)

Lemma sumZ_app (a b : list Z) : sumZ (a ++ b) = (sumZ a + sumZ b)%Z.
Proof. induction a as [|x a IH]; simpl; [reflexivity | lia]. Qed.

(** X11. For a population whose duplicate counts are at least 1, the
    expanded table holds, for every barcode, as many rows as the
    duplicate counts of the records of that barcode add up to; it has
    one row per read in all, and its rows are the records of the
    population. *)
Theorem explode_by_count_one_row_per_read (df : DataFrame) :
  Forall (fun r => (1 <= FragmentCount r)%Z) df ->
  (forall bc,
      Z.of_nat (List.length (rows_of bc (explode_by_count df)))
      = sumZ (map FragmentCount (rows_of bc df))) /\
  Z.of_nat (List.length (explode_by_count df)) = sumZ (map FragmentCount df) /\
  (forall r, In r (explode_by_count df) <-> In r df).
Proof.
  intros Hvalid. split; [|split].
  - intros bc. induction Hvalid as [|r df Hr _ IH]; [reflexivity|].
    change (explode_by_count (r :: df))
      with (repeat r (Z.to_nat (FragmentCount r)) ++ explode_by_count df).
    unfold rows_of in *. rewrite filter_app, length_app, Nat2Z.inj_add, IH.
    fold (rows_of bc (repeat r (Z.to_nat (FragmentCount r)))).
    rewrite rows_of_repeat. simpl.
    destruct (String.eqb bc (CellBarcode r)); simpl; lia.
  - induction Hvalid as [|r df Hr _ IH]; [reflexivity|].
    change (explode_by_count (r :: df))
      with (repeat r (Z.to_nat (FragmentCount r)) ++ explode_by_count df).
    rewrite length_app, repeat_length, Nat2Z.inj_add, IH. simpl. lia.
  - intros r. unfold explode_by_count. rewrite in_flat_map. split.
    + intros (x & Hx & Hin). apply repeat_spec in Hin. now subst.
    + intros Hin. exists r. split; [exact Hin|].
      rewrite Forall_forall in Hvalid. specialize (Hvalid r Hin).
      destruct (Z.to_nat (FragmentCount r)) eqn:E; [lia | now left].
Qed.

Lemma explode_by_count_one_row_per_read_witness :
  Z.of_nat (List.length (explode_by_count (records_for "cell" 3)))
  = sumZ (map FragmentCount (records_for "cell" 3)).
Proof.
  assert (Hvalid : Forall (fun r => (1 <= FragmentCount r)%Z)
                          (records_for "cell" 3))
    by (repeat constructor; discriminate).
  exact (proj1 (proj2 (explode_by_count_one_row_per_read _ Hvalid))).
Defined.

Lemma take_at_length {A : Type} (i : nat) (l : list A) (a : A) (l' : list A) :
  take_at i l = Some (a, l') -> List.length l = S (List.length l').
Proof.
  intros H. apply take_at_Permutation in H.
  now apply Permutation_length in H.
Qed.

Lemma sample_n_part {A : Type} (n : nat) (l : list A) (g : rng) :
  (n <= List.length l)%nat ->
  List.length (fst (sample_n n l g)) = n /\
  exists rest, Permutation (fst (sample_n n l g) ++ rest) l.
Proof.
  revert l g. induction n as [|n IH]; intros l g Hn.
  - split; [reflexivity|]. exists l. apply Permutation_refl.
  - simpl.
    assert (Hi : (Nat.modulo (hd O g) (List.length l) < List.length l)%nat)
      by (apply Nat.mod_upper_bound; lia).
    destruct (take_at_in_range _ _ Hi) as (a & l' & E). rewrite E.
    pose proof (take_at_length _ _ _ _ E) as Hl.
    destruct (IH l' (tl g)) as [Hlen (rest & Hp)]; [lia|].
    destruct (sample_n n l' (tl g)) as [r g'] eqn:Er. simpl in *.
    split; [now rewrite Hlen|].
    exists rest. apply Permutation_sym.
    apply perm_trans with (a :: l'); [now apply take_at_Permutation with (1 := E)|].
    apply perm_skip. now apply Permutation_sym.
Qed.

Lemma sample_length {A : Type} (frac : Q) (df sampled : list A) (g g' : rng) :
  sample frac df g = Ok (sampled, g') ->
  List.length sampled
  = Z.to_nat (py_int (frac * inject_Z (Z.of_nat (List.length df)))) /\
  exists rest, Permutation (sampled ++ rest) df.
Proof.
  unfold sample.
  destruct (Nat.ltb_spec (List.length df)
              (Z.to_nat (py_int (frac * inject_Z (Z.of_nat (List.length df))))))
    as [Hlt|Hle]; [discriminate|].
  intros H. injection H as Hs.
  pose proof (sample_n_part _ df g Hle) as Hpart.
  rewrite Hs in Hpart. exact Hpart.
Qed.

(** X12. A sample at a fraction between 0 and 1 never fails; it holds
    [int(frac * height)] rows and is drawn without replacement: with
    the rows left out it makes up the table again, so no row is drawn
    twice. *)
Theorem sample_without_replacement (frac : Q) (df : DataFrame) (g : rng) :
  0 <= frac -> frac <= 1 ->
  exists sampled g' rest,
    sample frac df g = Ok (sampled, g') /\
    List.length sampled
    = Z.to_nat (py_int (frac * inject_Z (Z.of_nat (List.length df)))) /\
    Permutation (sampled ++ rest) df.
Proof.
  intros H0 H1. rewrite (sample_total frac df g H0 H1).
  destruct (sample_n _ df g) as [sampled g'] eqn:E.
  assert (Hs : sample frac df g = Ok (sampled, g'))
    by (rewrite (sample_total frac df g H0 H1); now rewrite E).
  destruct (sample_length _ _ _ _ _ Hs) as [Hlen (rest & Hp)].
  now exists sampled, g', rest.
Qed.

Lemma sample_without_replacement_witness :
  exists sampled g',
    sample (1 # 2) (records_for "cell" 5) [3; 1; 4]%nat = Ok (sampled, g') /\
    List.length sampled = 2%nat.
Proof.
  assert (H0 : 0 <= 1 # 2) by discriminate.
  assert (H1 : 1 # 2 <= 1) by discriminate.
  destruct (sample_without_replacement (1 # 2) (records_for "cell" 5)
                                       [3; 1; 4]%nat H0 H1)
    as (sampled & g' & rest & Hs & Hlen & _).
  exists sampled, g'. split; [exact Hs | exact Hlen].
Defined.

(** ** The rows of the fractions *)

Lemma frame_rows (nbr : Z) (vals : list (Z * option Q * option Q)) :
  List.length vals = 10%nat ->
  tl (to_frame (write_chunks nbr fractions vals init_bucket))
  = map (fun fv => (chunk_label (fst fv), chunk_row nbr (snd fv)))
        (combine fractions vals).
Proof.
  intros Hl.
  do 10 (destruct vals as [|? vals]; [discriminate Hl|]).
  destruct vals; [|discriminate Hl].
  vm_compute. reflexivity.
Qed.

Lemma Forall2_rows {V R : Type} (P : Q -> V -> Prop) (S : Q -> R -> Prop)
    (h : Q * V -> R) (fs : list Q) (vals : list V) :
  Forall2 P fs vals ->
  (forall f v, In f fs -> P f v -> S f (h (f, v))) ->
  Forall2 S fs (map h (combine fs vals)).
Proof.
  intros H. induction H as [|f v fs vals Hfv _ IH]; intros Hstep; simpl.
  - constructor.
  - constructor.
    + apply Hstep; [now left | exact Hfv].
    + apply IH. intros f' v' Hin. apply Hstep. now right.
Qed.

(** The table of a run: the first row, and one row per fraction made of
    the statistics of a sample drawn at that fraction. *)
Lemma sub_sample_fragments_rows (df : DataFrame) (min_uniq_frag : Z) (g : rng) :
  let good := good_cell_barcodes_of df min_uniq_frag in
  let nbr := Z.of_nat (List.length good) in
  exists vals table g',
    sub_sample_fragments df min_uniq_frag g = Ok (table, g') /\
    tl table = map (fun fv => (chunk_label (fst fv), chunk_row nbr (snd fv)))
                   (combine fractions vals) /\
    Forall2 (drawn good (explode_by_count df)) fractions vals.
Proof.
  intros good nbr.
  destruct (sub_sample_fragments_runs df min_uniq_frag g)
    as (vals & g' & Hrun & Hvals).
  fold good in Hrun, Hvals. fold nbr in Hrun.
  exists vals. eexists. exists g'. split; [exact Hrun|].
  split; [|exact Hvals].
  apply frame_rows. apply Forall2_length in Hvals. now rewrite <- Hvals.
Qed.

(** ** Bounds on the joined table *)

Lemma good_matches_at_most_sample (good : list (string * Z)) (s : DataFrame) :
  NoDup (map fst good) ->
  (list_sum (map (fun l => List.length (rows_of (fst l) s)) good)
   <= List.length s)%nat.
Proof.
  intros Hnd. induction s as [|r s IH].
  - induction good as [|l good IHg]; simpl; [lia|].
    inversion Hnd; subst. now apply IHg.
  - rewrite (map_ext _ (fun l =>
               (List.length (rows_of (fst l) (repeat r 1))
                + List.length (rows_of (fst l) s))%nat)).
    + rewrite list_sum_map_add, (reads_of_record good r 1 Hnd).
      destruct (in_good good r); simpl; lia.
    + intros l. unfold rows_of. simpl.
      destruct (String.eqb (fst l) (CellBarcode r)); reflexivity.
Qed.

Lemma list_sum_step (x : nat) (l : list nat) :
  list_sum (x :: l) = (x + list_sum l)%nat.
Proof. reflexivity. Qed.

Lemma left_join_length_bounds (good : list (string * Z)) (s : DataFrame) :
  NoDup (map fst good) ->
  (List.length good <= List.length (left_join good s)
   <= List.length good + List.length s)%nat.
Proof.
  intros Hnd. rewrite left_join_length.
  pose proof (good_matches_at_most_sample good s Hnd) as Hup.
  revert Hup. generalize (List.length s). intros n.
  clear Hnd. revert n.
  induction good as [|l good IH]; intros n Hup;
    cbn [map List.length] in *; [simpl; lia|].
  rewrite list_sum_step in Hup |- *.
  assert (Hrest : (list_sum (map (fun l0 => List.length (rows_of (fst l0) s)) good)
                   <= n - List.length (rows_of (fst l) s))%nat) by lia.
  specialize (IH _ Hrest). lia.
Qed.

Lemma drawn_total_bounds (df : DataFrame) (t : Z) (f : Q)
    (v : Z * option Q * option Q) :
  0 <= f ->
  drawn (good_cell_barcodes_of df t) (explode_by_count df) f v ->
  (Z.of_nat (List.length (good_cell_barcodes_of df t)) <= fst (fst v)
   <= Z.of_nat (List.length (good_cell_barcodes_of df t))
      + py_int (f * inject_Z (Z.of_nat (List.length (explode_by_count df)))))%Z.
Proof.
  intros H0 (g0 & sampled & g1 & Hs & ->). simpl.
  destruct (sample_length _ _ _ _ _ Hs) as [Hlen _].
  pose proof (left_join_length_bounds _ sampled (good_cell_barcodes_NoDup df t))
    as Hb.
  assert (Hn : (0 <= py_int (f * inject_Z (Z.of_nat
                                (List.length (explode_by_count df)))))%Z).
  { apply py_int_nonneg. apply Qmult_le_0_compat; [exact H0|].
    change 0 with (inject_Z 0). rewrite <- Zle_Qle. lia. }
  lia.
Qed.

(** X13. In the row of every sampling fraction, [total_frag_count] is at
    least [cell_barcode_count] (the join keeps a row for every good
    barcode) and at most [cell_barcode_count] plus the number of sampled
    reads, [int(fraction * reads)]. *)
Theorem total_frag_count_bounds (df : DataFrame) (min_uniq_frag : Z) (g : rng) :
  let nbr := Z.of_nat (List.length (good_cell_barcodes_of df min_uniq_frag)) in
  let reads := Z.of_nat (List.length (explode_by_count df)) in
  exists table g',
    sub_sample_fragments df min_uniq_frag g = Ok (table, g') /\
    Forall2 (fun fraction row =>
               exists total,
                 row_total_frag_count (snd row) = Some total /\
                 row_cell_barcode_count (snd row) = Some nbr /\
                 (nbr <= total <= nbr + py_int (fraction * inject_Z reads))%Z)
            fractions (tl table).
Proof.
  intros nbr reads.
  destruct (sub_sample_fragments_rows df min_uniq_frag g)
    as (vals & table & g' & Hrun & Hrows & Hvals).
  exists table, g'. split; [exact Hrun|]. rewrite Hrows.
  apply (Forall2_rows _ _ _ _ _ Hvals).
  intros f v Hin Hd. exists (fst (fst v)). simpl.
  split; [reflexivity|]. split; [reflexivity|].
  apply drawn_total_bounds; [|exact Hd].
  pose proof fractions_in_range as Hr. rewrite Forall_forall in Hr.
  apply (Hr f Hin).
Qed.

(** ** The sizes of the groups *)

Section GroupSizes.
Context {A K : Type}.
Variable eqb : K -> K -> bool.
Variable key : A -> K.
Hypothesis eqb_eq : forall a b, eqb a b = true <-> a = b.

Lemma key_counted_once (ks : list K) (x : K) :
  NoDup ks -> In x ks ->
  list_sum (map (fun k => if eqb k x then 1%nat else O) ks) = 1%nat.
Proof.
  induction ks as [|k ks IH]; intros Hnd Hin; [destruct Hin|].
  inversion Hnd as [|? ? Hnin Hnd']; subst.
  cbn [map]. rewrite list_sum_step.
  destruct (eqb k x) eqn:E.
  - apply eqb_eq in E. subst k.
    assert (Hz : list_sum (map (fun k => if eqb k x then 1%nat else O) ks) = O).
    { clear IH Hnd Hnd' Hin. induction ks as [|k ks IH]; [reflexivity|].
      cbn [map]. rewrite list_sum_step.
      destruct (eqb k x) eqn:E.
      - apply eqb_eq in E. subst k. exfalso. apply Hnin. now left.
      - rewrite IH; [reflexivity|]. intros H. apply Hnin. now right. }
    now rewrite Hz.
  - destruct Hin as [->|Hin].
    + assert (Hx : eqb x x = true) by now apply eqb_eq. congruence.
    + now rewrite (IH Hnd' Hin).
Qed.

Lemma group_sizes_sum_over (ks : list K) (l : list A) :
  NoDup ks -> incl (map key l) ks ->
  list_sum (map (fun k => List.length (filter (fun r => eqb k (key r)) l)) ks)
  = List.length l.
Proof.
  intros Hnd. induction l as [|a l IH]; intros Hincl.
  - simpl. clear Hnd Hincl. induction ks as [|k ks IH]; [reflexivity|].
    cbn [map]. now rewrite list_sum_step, IH.
  - rewrite (map_ext _ (fun k =>
               ((if eqb k (key a) then 1 else 0)
                + List.length (filter (fun r => eqb k (key r)) l))%nat)).
    + rewrite list_sum_map_add, IH.
      * rewrite (key_counted_once ks (key a) Hnd); [reflexivity|].
        apply Hincl. now left.
      * intros k Hk. apply Hincl. now right.
    + intros k. simpl. now destruct (eqb k (key a)).
Qed.

(** The sizes of the groups of a table add up to its height. *)
Lemma group_sizes_sum (l : list A) :
  sumZ (map snd (agg_count (groupby eqb key l))) = Z.of_nat (List.length l).
Proof.
  rewrite <- (group_sizes_sum_over (distinct eqb (map key l)) l).
  - unfold agg_count, groupby. rewrite !map_map. simpl.
    generalize (distinct eqb (map key l)). intros ks.
    induction ks as [|k ks IH]; [reflexivity|].
    cbn [map]. rewrite list_sum_step, Nat2Z.inj_add, <- IH. reflexivity.
  - now apply distinct_NoDup.
  - intros k Hk. now apply distinct_In.
Qed.

(** Every group holds a row. *)
Lemma group_sizes_positive (l : list A) :
  Forall (fun n => (1 <= n)%Z) (map snd (agg_count (groupby eqb key l))).
Proof.
  apply Forall_forall. intros n Hn.
  apply in_map_iff in Hn. destruct Hn as ([k n'] & <- & Hin).
  unfold agg_count in Hin. apply in_map_iff in Hin.
  destruct Hin as ([k' rows] & H & Hin). simpl in H. injection H as <- <-.
  apply (groupby_In eqb key eqb_eq) in Hin. destruct Hin as [Hk ->].
  apply in_map_iff in Hk. destruct Hk as (r & Hr & Hin). simpl.
  assert (Hf : In r (filter (fun r0 => eqb k' (key r0)) l)).
  { apply filter_In. split; [exact Hin|]. apply eqb_eq. now symmetry. }
  destruct (filter (fun r0 => eqb k' (key r0)) l); [destruct Hf | simpl; lia].
Qed.

Lemma groups_count (l : list A) :
  List.length (agg_count (groupby eqb key l))
  = List.length (distinct eqb (map key l)).
Proof. unfold agg_count, groupby. now rewrite !length_map. Qed.
End GroupSizes.

(** The barcodes of the joined table are the good barcodes. *)
Lemma left_join_barcodes (good : list (string * Z)) (s : DataFrame) (bc : string) :
  In bc (map (fun j : JoinedRow => fst (fst j)) (left_join good s))
  <-> In bc (map fst good).
Proof.
  rewrite !in_map_iff. split.
  - intros ([l o] & <- & Hin). apply left_join_In in Hin.
    exists l. split; [reflexivity | apply Hin].
  - intros (l & <- & Hl).
    destruct (rows_of (fst l) s) as [|m ms] eqn:E.
    + exists (l, None). split; [reflexivity|]. apply left_join_In.
      split; [exact Hl|]. intros r Hr Hbc.
      assert (Hf : In r (rows_of (fst l) s)).
      { apply filter_In. split; [exact Hr|]. rewrite Hbc. apply String.eqb_refl. }
      rewrite E in Hf. destruct Hf.
    + exists (l, Some m). split; [reflexivity|]. apply left_join_In.
      split; [exact Hl|].
      assert (Hm : In m (rows_of (fst l) s)) by (rewrite E; now left).
      apply filter_In in Hm. destruct Hm as [Hm Hbc].
      split; [exact Hm|]. apply String.eqb_eq in Hbc. now symmetry.
Qed.

Lemma left_join_groups_count (good : list (string * Z)) (s : DataFrame) :
  NoDup (map fst good) ->
  List.length (distinct String.eqb
                 (map (fun j : JoinedRow => fst (fst j)) (left_join good s)))
  = List.length good.
Proof.
  intros Hnd. rewrite <- (length_map fst good).
  apply Permutation_length. apply NoDup_Permutation.
  - apply distinct_NoDup. apply String.eqb_eq.
  - exact Hnd.
  - intros bc. rewrite (distinct_In String.eqb String.eqb_eq).
    apply left_join_barcodes.
Qed.

Lemma mean_value (counts : list Z) (total : Z) (n : nat) :
  n <> O -> sumZ counts = total -> List.length counts = n ->
  mean counts = Some (inject_Z total / inject_Z (Z.of_nat n)).
Proof.
  intros Hn <- <-. destruct counts; [contradiction | reflexivity].
Qed.

(** The mean of the joined table: its height over the number of good
    barcodes. *)
Lemma mean_of_join (good : list (string * Z)) (s : DataFrame) :
  NoDup (map fst good) -> good <> [] ->
  mean_frag_per_bc_of (left_join good s)
  = Some (inject_Z (Z.of_nat (List.length (left_join good s)))
          / inject_Z (Z.of_nat (List.length good))).
Proof.
  intros Hnd Hne. unfold mean_frag_per_bc_of. apply mean_value.
  - destruct good; [congruence | discriminate].
  - exact (group_sizes_sum String.eqb (fun j : JoinedRow => fst (fst j))
                           String.eqb_eq (left_join good s)).
  - rewrite length_map.
    exact (eq_trans
             (groups_count String.eqb (fun j : JoinedRow => fst (fst j))
                           (left_join good s))
             (left_join_groups_count good s Hnd)).
Qed.

Lemma drawn_mean (df : DataFrame) (t : Z) (f : Q)
    (v : Z * option Q * option Q) :
  good_cell_barcodes_of df t <> [] ->
  drawn (good_cell_barcodes_of df t) (explode_by_count df) f v ->
  snd (fst v)
  = Some (inject_Z (fst (fst v))
          / inject_Z (Z.of_nat (List.length (good_cell_barcodes_of df t)))) /\
  1 <= inject_Z (fst (fst v))
       / inject_Z (Z.of_nat (List.length (good_cell_barcodes_of df t))).
Proof.
  intros Hne (g0 & sampled & g1 & _ & ->). simpl.
  split; [exact (mean_of_join _ sampled (good_cell_barcodes_NoDup df t) Hne)|].
  pose proof (left_join_length_bounds _ sampled (good_cell_barcodes_NoDup df t))
    as [Hlo _].
  assert (Hpos : (0 < List.length (good_cell_barcodes_of df t))%nat)
    by (destruct (good_cell_barcodes_of df t); [congruence | simpl; lia]).
  apply Qle_shift_div_l.
  - change 0 with (inject_Z 0). rewrite <- Zlt_Qlt. lia.
  - rewrite Qmult_1_l, <- Zle_Qle. lia.
Qed.

(** X14. When there is a good barcode, in the row of every sampling
    fraction [mean_frag_per_bc] is [total_frag_count] divided by
    [cell_barcode_count], the number of all good barcodes and not of
    those with a sampled fragment; it is never below 1. *)
Theorem mean_frag_per_bc_is_total_over_good (df : DataFrame)
    (min_uniq_frag : Z) (g : rng) :
  good_cell_barcodes_of df min_uniq_frag <> [] ->
  let nbr := Z.of_nat (List.length (good_cell_barcodes_of df min_uniq_frag)) in
  exists table g',
    sub_sample_fragments df min_uniq_frag g = Ok (table, g') /\
    Forall2 (fun (_ : Q) row =>
               exists total,
                 row_total_frag_count (snd row) = Some total /\
                 row_cell_barcode_count (snd row) = Some nbr /\
                 row_mean_frag_per_bc (snd row)
                 = Some (inject_Z total / inject_Z nbr) /\
                 1 <= inject_Z total / inject_Z nbr)
            fractions (tl table).
Proof.
  intros Hne nbr.
  destruct (sub_sample_fragments_rows df min_uniq_frag g)
    as (vals & table & g' & Hrun & Hrows & Hvals).
  exists table, g'. split; [exact Hrun|]. rewrite Hrows.
  apply (Forall2_rows _ _ _ _ _ Hvals).
  intros f v _ Hd. exists (fst (fst v)). simpl.
  split; [reflexivity|]. split; [reflexivity|].
  exact (drawn_mean df min_uniq_frag f v Hne Hd).
Qed.

Lemma mean_frag_per_bc_is_total_over_good_witness :
  good_cell_barcodes_of (records_for "cell" 3) 2 <> [] /\
  exists table g',
    sub_sample_fragments (records_for "cell" 3) 2 [4; 0; 7]%nat
    = Ok (table, g').
Proof.
  assert (Hne : good_cell_barcodes_of (records_for "cell" 3) 2 <> [])
    by discriminate.
  split; [exact Hne|].
  destruct (mean_frag_per_bc_is_total_over_good (records_for "cell" 3) 2
                                                [4; 0; 7]%nat Hne)
    as (table & g' & Hrun & _).
  now exists table, g'.
Defined.

(** ** The median *)

Lemma insert_sorted_Forall (P : Z -> Prop) (x : Z) (l : list Z) :
  P x -> Forall P l -> Forall P (insert_sorted x l).
Proof.
  intros Hx Hl. induction Hl as [|y l Hy Hl IH]; simpl.
  - now constructor.
  - destruct (x <=? y)%Z; repeat constructor; assumption.
Qed.

Lemma insert_sorted_length (x : Z) (l : list Z) :
  List.length (insert_sorted x l) = S (List.length l).
Proof.
  induction l as [|y l IH]; simpl; [reflexivity|].
  destruct (x <=? y)%Z; simpl; [reflexivity | now rewrite IH].
Qed.

Lemma sort_Forall (P : Z -> Prop) (l : list Z) : Forall P l -> Forall P (sort l).
Proof.
  unfold sort. induction 1 as [|x l Hx _ IH]; simpl; [constructor|].
  now apply insert_sorted_Forall.
Qed.

Lemma sort_length (l : list Z) : List.length (sort l) = List.length l.
Proof.
  unfold sort. induction l as [|x l IH]; simpl; [reflexivity|].
  now rewrite insert_sorted_length, IH.
Qed.

(** The median of a column lies between any two bounds of its
    entries. *)
Lemma median_between (lo hi : Z) (l : list Z) :
  l <> [] -> Forall (fun n => (lo <= n <= hi)%Z) l ->
  exists m, median l = Some m /\ inject_Z lo <= m /\ m <= inject_Z hi.
Proof.
  intros Hne Hall.
  pose proof (sort_Forall _ _ Hall) as Hs. rewrite Forall_forall in Hs.
  pose proof (sort_length l) as Hl.
  assert (Hpos : (0 < List.length (sort l))%nat)
    by (rewrite Hl; destruct l; [congruence | simpl; lia]).
  assert (Hnth : forall i, (i < List.length (sort l))%nat ->
                           inject_Z lo <= inject_Z (nth i (sort l) 0%Z)
                           /\ inject_Z (nth i (sort l) 0%Z) <= inject_Z hi).
  { intros i Hi. rewrite <- !Zle_Qle. apply Hs. now apply nth_In. }
  unfold median. destruct l as [|x l]; [congruence|].
  remember (sort (x :: l)) as s eqn:Es.
  assert (Hhalf : (List.length s / 2 < List.length s)%nat)
    by (apply Nat.div_lt; lia).
  destruct (Nat.even (List.length s)).
  - eexists. split; [reflexivity|].
    destruct (Hnth (List.length s / 2 - 1)%nat) as [Ha Ha']; [lia|].
    destruct (Hnth (List.length s / 2)%nat Hhalf) as [Hb Hb'].
    split.
    + apply Qle_shift_div_l; [reflexivity | lra].
    + apply Qle_shift_div_r; [reflexivity | lra].
  - eexists. split; [reflexivity|]. exact (Hnth _ Hhalf).
Qed.

Section GroupBounds.
Context {A K : Type}.
Variable eqb : K -> K -> bool.
Variable key : A -> K.
Hypothesis eqb_eq : forall a b, eqb a b = true <-> a = b.

Lemma kept_at_most {B : Type} (p : B -> bool) (l : list B) :
  (List.length (filter p l) <= List.length l)%nat.
Proof.
  induction l as [|b l IH]; simpl; [lia|].
  destruct (p b); simpl; lia.
Qed.

Lemma distinct_at_most (ks : list K) :
  (List.length (distinct eqb ks) <= List.length ks)%nat.
Proof.
  induction ks as [|k ks IH]; simpl; [lia|].
  pose proof (kept_at_most (fun k' => negb (eqb k k')) (distinct eqb ks)). lia.
Qed.

Lemma groups_at_most_rows (l : list A) :
  (List.length (groupby eqb key l) <= List.length l)%nat.
Proof.
  unfold groupby. rewrite length_map.
  pose proof (distinct_at_most (map key l)) as H.
  now rewrite length_map in H.
Qed.

Lemma group_sizes_at_most (l : list A) :
  Forall (fun n => (n <= Z.of_nat (List.length l))%Z)
         (map snd (agg_count (groupby eqb key l))).
Proof.
  apply Forall_forall. intros n Hn.
  apply in_map_iff in Hn. destruct Hn as ([k n'] & <- & Hin).
  unfold agg_count in Hin. apply in_map_iff in Hin.
  destruct Hin as ([k' rows] & H & Hin). simpl in H. injection H as <- <-.
  apply (groupby_In eqb key eqb_eq) in Hin. destruct Hin as [_ ->]. simpl.
  pose proof (kept_at_most (fun r => eqb k' (key r)) l). lia.
Qed.

Lemma groupby_nonempty (l : list A) : l <> [] -> groupby eqb key l <> [].
Proof. destruct l; [congruence | discriminate]. Qed.
End GroupBounds.

(** The median of the joined table lies between 1 and its height. *)
Lemma median_of_join_between (joined : list JoinedRow) :
  joined <> [] ->
  exists m,
    median_uniq_frag_per_bc_of joined = Some m /\
    1 <= m /\ m <= inject_Z (Z.of_nat (List.length joined)).
Proof.
  intros Hne. unfold median_uniq_frag_per_bc_of.
  set (positions := groupby position_key_eqb position_key joined).
  assert (Hpos : positions <> []) by now apply groupby_nonempty.
  assert (Hle : (List.length positions <= List.length joined)%nat)
    by apply groups_at_most_rows.
  apply (median_between 1 (Z.of_nat (List.length joined))).
  - intros E. apply map_eq_nil in E. unfold agg_count in E.
    apply map_eq_nil in E. revert E. now apply groupby_nonempty.
  - pose proof (group_sizes_positive String.eqb
                  (fun p : (string * option (string * Z * Z)) * list JoinedRow =>
                     fst (fst p))
                  String.eqb_eq positions) as Hlo.
    pose proof (group_sizes_at_most String.eqb
                  (fun p : (string * option (string * Z * Z)) * list JoinedRow =>
                     fst (fst p))
                  String.eqb_eq positions) as Hhi.
    rewrite Forall_forall in Hlo, Hhi. apply Forall_forall.
    intros n Hn. specialize (Hlo n Hn). specialize (Hhi n Hn). lia.
Qed.

Lemma drawn_median (df : DataFrame) (t : Z) (f : Q)
    (v : Z * option Q * option Q) :
  good_cell_barcodes_of df t <> [] ->
  drawn (good_cell_barcodes_of df t) (explode_by_count df) f v ->
  exists m, snd v = Some m /\ 1 <= m /\ m <= inject_Z (fst (fst v)).
Proof.
  intros Hne (g0 & sampled & g1 & _ & ->). simpl.
  apply median_of_join_between.
  pose proof (left_join_length_bounds _ sampled (good_cell_barcodes_NoDup df t))
    as [Hlo _].
  intros E. rewrite E in Hlo.
  destruct (good_cell_barcodes_of df t); [congruence | simpl in Hlo; lia].
Qed.

(** X15. When there is a good barcode, in the row of every sampling
    fraction [median_uniq_frag_per_bc] is a number between 1 and
    [total_frag_count]: it is at least 1 even at a fraction where no
    read of a barcode was sampled. *)
Theorem median_uniq_frag_per_bc_between (df : DataFrame) (min_uniq_frag : Z)
    (g : rng) :
  good_cell_barcodes_of df min_uniq_frag <> [] ->
  exists table g',
    sub_sample_fragments df min_uniq_frag g = Ok (table, g') /\
    Forall2 (fun (_ : Q) row =>
               exists total m,
                 row_total_frag_count (snd row) = Some total /\
                 row_median_uniq_frag_per_bc (snd row) = Some m /\
                 1 <= m /\ m <= inject_Z total)
            fractions (tl table).
Proof.
  intros Hne.
  destruct (sub_sample_fragments_rows df min_uniq_frag g)
    as (vals & table & g' & Hrun & Hrows & Hvals).
  exists table, g'. split; [exact Hrun|]. rewrite Hrows.
  apply (Forall2_rows _ _ _ _ _ Hvals).
  intros f v _ Hd.
  destruct (drawn_median df min_uniq_frag f v Hne Hd) as (m & Hm & Hlo & Hhi).
  exists (fst (fst v)), m. simpl. repeat split; assumption.
Qed.

Lemma median_uniq_frag_per_bc_between_witness :
  good_cell_barcodes_of (records_for "cell" 3) 2 <> [] /\
  exists table g',
    sub_sample_fragments (records_for "cell" 3) 2 [2; 2; 1]%nat
    = Ok (table, g').
Proof.
  assert (Hne : good_cell_barcodes_of (records_for "cell" 3) 2 <> [])
    by discriminate.
  split; [exact Hne|].
  destruct (median_uniq_frag_per_bc_between (records_for "cell" 3) 2
                                            [2; 2; 1]%nat Hne)
    as (table & g' & Hrun & _).
  now exists table, g'.
Defined.

(** ** How many barcodes can be good *)

Lemma good_counts_sum (good : list (string * Z)) (s : DataFrame) :
  NoDup (map fst good) ->
  list_sum (map (fun l => List.length (rows_of (fst l) s)) good)
  = List.length (filter (in_good good) s).
Proof.
  intros Hnd. induction s as [|r s IH].
  - simpl. clear Hnd. induction good as [|l good IHg]; [reflexivity|].
    cbn [map]. now rewrite list_sum_step, IHg.
  - rewrite (map_ext _ (fun l =>
               (List.length (rows_of (fst l) (repeat r 1))
                + List.length (rows_of (fst l) s))%nat)).
    + rewrite list_sum_map_add, (reads_of_record good r 1 Hnd), IH. simpl.
      destruct (in_good good r); reflexivity.
    + intros l. unfold rows_of. simpl.
      destruct (String.eqb (fst l) (CellBarcode r)); reflexivity.
Qed.

Lemma good_counts_are_records (df : DataFrame) (t : Z) :
  sumZ (map snd (good_cell_barcodes_of df t))
  = Z.of_nat (list_sum (map (fun l => List.length (rows_of (fst l) df))
                            (good_cell_barcodes_of df t))).
Proof.
  assert (H : forall l, In l (good_cell_barcodes_of df t) ->
                        snd l = Z.of_nat (List.length (rows_of (fst l) df))).
  { intros [bc n] Hin. apply good_cell_barcodes_In in Hin.
    destruct Hin as (_ & -> & _). reflexivity. }
  induction (good_cell_barcodes_of df t) as [|l good IH]; [reflexivity|].
  cbn [map]. rewrite list_sum_step, Nat2Z.inj_add. simpl.
  rewrite (H l (or_introl eq_refl)), IH; [reflexivity|].
  intros l' Hl'. apply H. now right.
Qed.

Lemma good_counts_above (df : DataFrame) (t : Z) :
  (Z.of_nat (List.length (good_cell_barcodes_of df t)) * (t + 1)
   <= sumZ (map snd (good_cell_barcodes_of df t)))%Z.
Proof.
  assert (H : forall l, In l (good_cell_barcodes_of df t) -> (t < snd l)%Z).
  { intros [bc n] Hin. apply good_cell_barcodes_In in Hin. apply Hin. }
  induction (good_cell_barcodes_of df t) as [|l good IH]; [reflexivity|].
  pose proof (H l (or_introl eq_refl)) as Hl.
  assert (IH' : (Z.of_nat (List.length good) * (t + 1) <= sumZ (map snd good))%Z).
  { apply IH. intros l' Hl'. apply H. now right. }
  change (sumZ (map snd (l :: good))) with (snd l + sumZ (map snd good))%Z.
  change (List.length (l :: good)) with (S (List.length good)).
  rewrite Nat2Z.inj_succ. nia.
Qed.

(** X16. The record counts of the good barcodes add up to the number
    of records that carry a good barcode; each being above
    [min_uniq_frag], the number of good barcodes times
    [min_uniq_frag + 1] never exceeds the number of records of the
    population. *)
Theorem good_cell_barcodes_share_records (df : DataFrame) (min_uniq_frag : Z) :
  let good := good_cell_barcodes_of df min_uniq_frag in
  sumZ (map snd good) = Z.of_nat (List.length (filter (in_good good) df)) /\
  (Z.of_nat (List.length good) * (min_uniq_frag + 1)
   <= Z.of_nat (List.length df))%Z.
Proof.
  intros good.
  assert (Hsum : sumZ (map snd good)
                 = Z.of_nat (List.length (filter (in_good good) df))).
  { unfold good. rewrite good_counts_are_records. f_equal.
    apply good_counts_sum. apply good_cell_barcodes_NoDup. }
  split; [exact Hsum|].
  pose proof (good_counts_above df min_uniq_frag) as Hab. fold good in Hab.
  pose proof (kept_at_most (in_good good) df) as Hle.
  lia.
Qed.
